(** * Chat sessions dashboard: pagination, filter, selection, notification

    A shallow embedding of [src/pages/messagingInterface.tsx] and
    [src/components/snackbar.tsx].

    - React state ([useState]) is a record [State]; a render binds the
      state variables once, so a callback created by a render reads the
      values of that render ([Render]) while its [setX] calls write to the
      live store.
    - [fetchSessions] is an [async] function: it is cut at its single
      [await] chain into [fetchSessions_start] (guard, [setLoading(true)],
      request sent) and [fetchSessions_resume] (the rest of the
      [try]/[catch]/[finally], run when the request settles).
    - Exceptions are explicit completions ([Normal] / [Throw]).
    - [Date.parse] belongs to the host; it is a parameter of the
      development, and [Date_parse_iso] is an executable instance for the
      UTC forms of the ECMAScript date-time string format.
    - JavaScript strings are modelled by [string].
      [String.prototype.toLowerCase] belongs to the host as well and is a
      parameter; [JS.asciiToLowerCase] is what it computes on strings of
      ASCII characters, and the instance used to run examples.
    - The functions of the date library ([format], [formatDistanceToNow])
      are parameters too; they may throw. *)

From Stdlib Require Import ZArith List String Ascii Bool Lia.
From Stdlib Require Import Permutation Sorted.
Import ListNotations.

Local Open Scope string_scope.
Local Open Scope list_scope.
Local Open Scope Z_scope.

(* ------------------------------------------------------------------ *)
(** * Data model (the two interfaces of messagingInterface.tsx) *)

Inductive Action : Type := USER | AI.

Module Message.
Record t : Type := make {
  id : Z;
  content : string;
  action : Action;
  timestamp : string
}.
End Message.

Module ChatSession.
Record t : Type := make {
  id : Z;
  name : string;
  messages : list Message.t;
  message_count : Z;
  role : option string
}.
End ChatSession.

(* ------------------------------------------------------------------ *)
(** * The pieces of the JavaScript library that the code calls *)

Module JS.

(** ** Strings *)

Definition isUpper (c : ascii) : bool :=
  ((65 <=? nat_of_ascii c) && (nat_of_ascii c <=? 90))%nat.

Definition lowerChar (c : ascii) : ascii :=
  if isUpper c then ascii_of_nat (nat_of_ascii c + 32) else c.

(** What [String.prototype.toLowerCase] computes on a string of ASCII
    characters: the letters A-Z are folded, the rest is kept. *)
Fixpoint asciiToLowerCase (s : string) : string :=
  match s with
  | EmptyString => EmptyString
  | String c s' => String (lowerChar c) (asciiToLowerCase s')
  end.

(** Every character is below 128. *)
Fixpoint isAscii (s : string) : bool :=
  match s with
  | EmptyString => true
  | String c s' => (nat_of_ascii c <? 128)%nat && isAscii s'
  end.

(** A [toLowerCase] that does on ASCII strings what the standard says. *)
Definition agreesOnAscii (toLowerCase : string -> string) : Prop :=
  forall s, isAscii s = true -> toLowerCase s = asciiToLowerCase s.

(** [s.startsWith(q)] *)
Fixpoint startsWith (s q : string) {struct q} : bool :=
  match q with
  | EmptyString => true
  | String a q' =>
      match s with
      | EmptyString => false
      | String b s' => Ascii.eqb a b && startsWith s' q'
      end
  end.

(** [s.includes(q)]: [q] occurs at some position of [s]. *)
Fixpoint includes (s q : string) : bool :=
  startsWith s q ||
  match s with
  | EmptyString => false
  | String _ s' => includes s' q
  end.

(** A string is falsy exactly when it is empty. *)
Definition truthy (s : string) : bool :=
  match s with EmptyString => false | _ => true end.

(** ** Numbers that may be NaN

    Time values are integers of absolute value at most 8.64e15, which
    doubles represent exactly; [None] is NaN.  The difference of two
    time values is rounded by the double subtraction, but never across
    zero, and [Array.prototype.sort] only looks at the sign. *)

Definition number : Type := option Z.

Definition sub (a b : number) : number :=
  match a, b with
  | Some x, Some y => Some (x - y)
  | _, _ => None
  end.

(** [a >= b] and [a <= b] on numbers: false as soon as one side is NaN. *)
Definition ge (a b : number) : bool :=
  match a, b with
  | Some x, Some y => y <=? x
  | _, _ => false
  end.

Definition le (a b : number) : bool := ge b a.

(** ** [Array.prototype.sort(comparefn)]

    The sort is stable (ECMAScript 2019).  [comparefn(a, b) > 0] asks for
    [b] before [a]; a negative, zero or NaN result keeps [a] first.  With
    a consistent comparator every stable sort yields the same array, the
    one computed here by insertion; with an inconsistent one (NaN
    results) the order is implementation-defined and only the fact that
    the result is a permutation is relied upon. *)

Section Sort.
Context {A : Type} (comparefn : A -> A -> number).

Definition after (a b : A) : bool :=
  match comparefn a b with
  | Some v => 0 <? v
  | None => false
  end.

Fixpoint insert (a : A) (l : list A) : list A :=
  match l with
  | [] => [a]
  | b :: l' => if after a b then b :: insert a l' else a :: l
  end.

Fixpoint sort (l : list A) : list A :=
  match l with
  | [] => []
  | a :: l' => insert a (sort l')
  end.

(** On the elements of [l] the comparator is the difference of the
    keys, [key b - key a]: a consistent comparator for descending
    keys. *)
Definition subtractsKeys (key : A -> Z) (l : list A) : Prop :=
  forall a b, In a l -> In b l -> comparefn a b = Some (key b - key a).
End Sort.

Definition keyDescending {A : Type} (key : A -> Z) (a b : A) : Prop :=
  key b <= key a.

(** ** Errors and completions *)

Record Error : Type := mkError { message : string }.

Inductive Completion (A : Type) : Type :=
| Normal (a : A)
| Throw (e : Error).
Arguments Normal {A} a.
Arguments Throw {A} e.

End JS.

(* ------------------------------------------------------------------ *)
(** * Dates *)

(** What the code hands to [new Date(...)]: a timestamp string, the
    number [0], or the object [new Date(0)]. *)
Inductive DateArg : Type :=
| OfString (s : string)
| OfNumber (n : Z)
| OfDate (t : JS.number).

(** An executable [Date.parse] for the UTC forms [YYYY-MM-DD] and
    [YYYY-MM-DDTHH:mm:ss(.sss)Z]; every other string is an invalid date. *)
Module IsoDate.

Definition digit (c : ascii) : option Z :=
  let n := nat_of_ascii c in
  if ((48 <=? n) && (n <=? 57))%nat then Some (Z.of_nat n - 48) else None.

(** The first [n] characters as a decimal number, and the rest. *)
Fixpoint digits (n : nat) (acc : Z) (s : string) : option (Z * string) :=
  match n with
  | O => Some (acc, s)
  | S n' =>
      match s with
      | EmptyString => None
      | String c s' =>
          match digit c with
          | Some d => digits n' (10 * acc + d) s'
          | None => None
          end
      end
  end.

Definition expect (c : ascii) (s : string) : option string :=
  match s with
  | String c' s' => if Ascii.eqb c c' then Some s' else None
  | EmptyString => None
  end.

Definition isLeap (y : Z) : bool :=
  ((y mod 4 =? 0) && negb (y mod 100 =? 0)) || (y mod 400 =? 0).

Definition daysInMonth (y m : Z) : Z :=
  if m =? 2 then (if isLeap y then 29 else 28)
  else if (m =? 4) || (m =? 6) || (m =? 9) || (m =? 11) then 30
  else 31.

(** Days from 1970-01-01 to the civil date [y-m-d]. *)
Definition daysFromCivil (y m d : Z) : Z :=
  let y' := if m <=? 2 then y - 1 else y in
  let era := y' / 400 in
  let yoe := y' - era * 400 in
  let mp := (m + 9) mod 12 in
  let doy := (153 * mp + 2) / 5 + d - 1 in
  let doe := yoe * 365 + yoe / 4 - yoe / 100 + doy in
  era * 146097 + doe - 719468.

Definition msPerDay : Z := 86400000.

Definition time (s : string) : option (Z * string) :=
  match expect "T" s with
  | None => None
  | Some s =>
  match digits 2 0 s with
  | None => None
  | Some (hh, s) =>
  match expect ":" s with
  | None => None
  | Some s =>
  match digits 2 0 s with
  | None => None
  | Some (mm, s) =>
  match expect ":" s with
  | None => None
  | Some s =>
  match digits 2 0 s with
  | None => None
  | Some (ss, s) =>
      if (hh <=? 23) && (mm <=? 59) && (ss <=? 59) then
        match expect "." s with
        | None => Some ((hh * 60 + mm) * 60000 + ss * 1000, s)
        | Some s' =>
            match digits 3 0 s' with
            | Some (ms, s'') =>
                Some ((hh * 60 + mm) * 60000 + ss * 1000 + ms, s'')
            | None => None
            end
        end
      else None
  end end end end end end.

Definition parse (s : string) : JS.number :=
  match digits 4 0 s with
  | None => None
  | Some (y, s) =>
  match expect "-" s with
  | None => None
  | Some s =>
  match digits 2 0 s with
  | None => None
  | Some (m, s) =>
  match expect "-" s with
  | None => None
  | Some s =>
  match digits 2 0 s with
  | None => None
  | Some (d, s) =>
      if (1 <=? m) && (m <=? 12) && (1 <=? d) && (d <=? daysInMonth y m)
      then
        let day := daysFromCivil y m d * msPerDay in
        match s with
        | EmptyString => Some day
        | _ =>
            match time s with
            | Some (t, "Z") => Some (day + t)
            | _ => None
            end
        end
      else None
  end end end end end.

End IsoDate.

Definition Date_parse_iso : string -> JS.number := IsoDate.parse.

(* ------------------------------------------------------------------ *)
(** * Component state (the [useState] cells of [MessagingInterface]) *)

Record State : Type := mkState {
  sessions : list ChatSession.t;
  selectedSession : option Z;
  messages : list Message.t;
  page : Z;
  searchQuery : string;
  totalPages : option Z;
  loading : bool;
  error : option string;
  isSnackbarVisible : bool;
  startDate : string;
  endDate : string;
  showSearch : bool;
  showDateRange : bool
}.

Definition initialState : State :=
  {| sessions := []; selectedSession := None; messages := []; page := 1;
     searchQuery := ""; totalPages := None; loading := false; error := None;
     isSnackbarVisible := false; startDate := ""; endDate := "";
     showSearch := false; showDateRange := false |}.

(** The bindings a render closes over.  Every callback of the component
    lists all the state it reads in its dependency array, so the callback
    of a render reads exactly that render's values. *)
Definition Render : Type := State.

(** ** The network *)

Definition API_URL : string :=
  "https://admin-backend-docker-india-306034828043.asia-south2.run.app/nlp/api/chat_sessions".

(** [fetch(`${API_URL}?page=${page}&per_page=20`)] *)
Record Request : Type := mkRequest {
  req_url : string;
  req_page : Z;
  req_per_page : Z
}.

Record Data : Type := mkData {
  total_pages : option Z;
  chat_sessions : option (list ChatSession.t)
}.

(** What [response.json()] settles to. *)
Inductive Body : Type :=
| Malformed (e : JS.Error)
| Json (data : Data).

(** What [fetch] settles to. *)
Inductive FetchResult : Type :=
| Rejected (e : JS.Error)
| Response (status : Z) (body : Body).

Definition ok (status : Z) : bool := (200 <=? status) && (status <=? 299).

(** ** The world the callbacks act on: the live store and the log of the
    requests sent so far (oldest first). *)
Record World : Type := mkWorld {
  store : State;
  network : list Request
}.

Definition initialWorld : World := {| store := initialState; network := [] |}.

(** ** Effects: state passing with exceptions *)

Definition Eff (A : Type) : Type := World -> JS.Completion A * World.

Definition ret {A} (a : A) : Eff A := fun w => (JS.Normal a, w).

Definition throw {A} (e : JS.Error) : Eff A := fun w => (JS.Throw e, w).

Definition bind {A B} (m : Eff A) (k : A -> Eff B) : Eff B :=
  fun w =>
    match m w with
    | (JS.Normal a, w') => k a w'
    | (JS.Throw e, w') => (JS.Throw e, w')
    end.

Declare Scope eff_scope.
Delimit Scope eff_scope with eff.
Bind Scope eff_scope with Eff.
Notation "x <- m ;; k" := (bind m (fun x => k))
  (at level 61, m at next level, right associativity) : eff_scope.
Notation "m ;; k" := (bind m (fun _ => k))
  (at level 61, right associativity) : eff_scope.
Local Open Scope eff_scope.

(** [try { body } catch (error) { handler } finally { finalizer }] *)
Definition try_catch_finally {A} (body : Eff A) (handler : JS.Error -> Eff A)
    (finalizer : Eff unit) : Eff A :=
  fun w =>
    let (c, w1) := body w in
    let (c', w2) :=
      match c with
      | JS.Normal a => (JS.Normal a, w1)
      | JS.Throw e => handler e w1
      end in
    match finalizer w2 with
    | (JS.Normal _, w3) => (c', w3)
    | (JS.Throw e, w3) => (JS.Throw e, w3)
    end.

Definition update (f : State -> State) : Eff unit :=
  fun w => (JS.Normal tt, {| store := f (store w); network := network w |}).

Definition send (r : Request) : Eff unit :=
  fun w => (JS.Normal tt, {| store := store w; network := network w ++ [r] |}).

(** ** The state setters *)

Definition setSessions (f : list ChatSession.t -> list ChatSession.t) : Eff unit :=
  update (fun st =>
    {| sessions := f (sessions st); selectedSession := selectedSession st;
       messages := messages st; page := page st; searchQuery := searchQuery st;
       totalPages := totalPages st; loading := loading st; error := error st;
       isSnackbarVisible := isSnackbarVisible st; startDate := startDate st;
       endDate := endDate st; showSearch := showSearch st;
       showDateRange := showDateRange st |}).

Definition setSelectedSession (v : option Z) : Eff unit :=
  update (fun st =>
    {| sessions := sessions st; selectedSession := v;
       messages := messages st; page := page st; searchQuery := searchQuery st;
       totalPages := totalPages st; loading := loading st; error := error st;
       isSnackbarVisible := isSnackbarVisible st; startDate := startDate st;
       endDate := endDate st; showSearch := showSearch st;
       showDateRange := showDateRange st |}).

Definition setMessages (v : list Message.t) : Eff unit :=
  update (fun st =>
    {| sessions := sessions st; selectedSession := selectedSession st;
       messages := v; page := page st; searchQuery := searchQuery st;
       totalPages := totalPages st; loading := loading st; error := error st;
       isSnackbarVisible := isSnackbarVisible st; startDate := startDate st;
       endDate := endDate st; showSearch := showSearch st;
       showDateRange := showDateRange st |}).

Definition setPage (f : Z -> Z) : Eff unit :=
  update (fun st =>
    {| sessions := sessions st; selectedSession := selectedSession st;
       messages := messages st; page := f (page st);
       searchQuery := searchQuery st;
       totalPages := totalPages st; loading := loading st; error := error st;
       isSnackbarVisible := isSnackbarVisible st; startDate := startDate st;
       endDate := endDate st; showSearch := showSearch st;
       showDateRange := showDateRange st |}).

Definition setSearchQuery (v : string) : Eff unit :=
  update (fun st =>
    {| sessions := sessions st; selectedSession := selectedSession st;
       messages := messages st; page := page st; searchQuery := v;
       totalPages := totalPages st; loading := loading st; error := error st;
       isSnackbarVisible := isSnackbarVisible st; startDate := startDate st;
       endDate := endDate st; showSearch := showSearch st;
       showDateRange := showDateRange st |}).

Definition setTotalPages (v : option Z) : Eff unit :=
  update (fun st =>
    {| sessions := sessions st; selectedSession := selectedSession st;
       messages := messages st; page := page st; searchQuery := searchQuery st;
       totalPages := v; loading := loading st; error := error st;
       isSnackbarVisible := isSnackbarVisible st; startDate := startDate st;
       endDate := endDate st; showSearch := showSearch st;
       showDateRange := showDateRange st |}).

Definition setLoading (v : bool) : Eff unit :=
  update (fun st =>
    {| sessions := sessions st; selectedSession := selectedSession st;
       messages := messages st; page := page st; searchQuery := searchQuery st;
       totalPages := totalPages st; loading := v; error := error st;
       isSnackbarVisible := isSnackbarVisible st; startDate := startDate st;
       endDate := endDate st; showSearch := showSearch st;
       showDateRange := showDateRange st |}).

Definition setError (v : option string) : Eff unit :=
  update (fun st =>
    {| sessions := sessions st; selectedSession := selectedSession st;
       messages := messages st; page := page st; searchQuery := searchQuery st;
       totalPages := totalPages st; loading := loading st; error := v;
       isSnackbarVisible := isSnackbarVisible st; startDate := startDate st;
       endDate := endDate st; showSearch := showSearch st;
       showDateRange := showDateRange st |}).

Definition setSnackbarVisible (v : bool) : Eff unit :=
  update (fun st =>
    {| sessions := sessions st; selectedSession := selectedSession st;
       messages := messages st; page := page st; searchQuery := searchQuery st;
       totalPages := totalPages st; loading := loading st; error := error st;
       isSnackbarVisible := v; startDate := startDate st;
       endDate := endDate st; showSearch := showSearch st;
       showDateRange := showDateRange st |}).

Definition setStartDate (v : string) : Eff unit :=
  update (fun st =>
    {| sessions := sessions st; selectedSession := selectedSession st;
       messages := messages st; page := page st; searchQuery := searchQuery st;
       totalPages := totalPages st; loading := loading st; error := error st;
       isSnackbarVisible := isSnackbarVisible st; startDate := v;
       endDate := endDate st; showSearch := showSearch st;
       showDateRange := showDateRange st |}).

Definition setEndDate (v : string) : Eff unit :=
  update (fun st =>
    {| sessions := sessions st; selectedSession := selectedSession st;
       messages := messages st; page := page st; searchQuery := searchQuery st;
       totalPages := totalPages st; loading := loading st; error := error st;
       isSnackbarVisible := isSnackbarVisible st; startDate := startDate st;
       endDate := v; showSearch := showSearch st;
       showDateRange := showDateRange st |}).

Definition setShowSearch (v : bool) : Eff unit :=
  update (fun st =>
    {| sessions := sessions st; selectedSession := selectedSession st;
       messages := messages st; page := page st; searchQuery := searchQuery st;
       totalPages := totalPages st; loading := loading st; error := error st;
       isSnackbarVisible := isSnackbarVisible st; startDate := startDate st;
       endDate := endDate st; showSearch := v;
       showDateRange := showDateRange st |}).

Definition setShowDateRange (v : bool) : Eff unit :=
  update (fun st =>
    {| sessions := sessions st; selectedSession := selectedSession st;
       messages := messages st; page := page st; searchQuery := searchQuery st;
       totalPages := totalPages st; loading := loading st; error := error st;
       isSnackbarVisible := isSnackbarVisible st; startDate := startDate st;
       endDate := endDate st; showSearch := showSearch st;
       showDateRange := v |}).

(* ------------------------------------------------------------------ *)
(** * The component [MessagingInterface] *)

Section MessagingInterface.

(** The host's [Date.parse]; [None] is NaN (an invalid date). *)
Variable Date_parse : string -> JS.number.

(** The host's [String.prototype.toLowerCase]. *)
Variable toLowerCase : string -> string.

(** [new Date(arg).getTime()] *)
Definition getTime (arg : DateArg) : JS.number :=
  match arg with
  | OfString s => Date_parse s
  | OfNumber n => Some n
  | OfDate t => t
  end.

(** [a.messages[0]?.timestamp || new Date(0)] (lines 56-57, 64-65) *)
Definition latestMessage (a : ChatSession.t) : DateArg :=
  match ChatSession.messages a with
  | m :: _ =>
      if JS.truthy (Message.timestamp m) then OfString (Message.timestamp m)
      else OfDate (Some 0)
  | [] => OfDate (Some 0)
  end.

(** The comparator of both sorts (lines 55-59 and 63-67). *)
Definition compareSessions (a b : ChatSession.t) : JS.number :=
  let aLatestMessage := latestMessage a in
  let bLatestMessage := latestMessage b in
  JS.sub (getTime bLatestMessage) (getTime aLatestMessage).

(** ** [fetchSessions] (lines 42-77) *)

Definition fetchSessions_guard (r : Render) : bool :=
  loading r ||
  match totalPages r with
  | Some t => t <? page r
  | None => false
  end.

Definition fetchRequest (r : Render) : Request :=
  {| req_url := API_URL; req_page := page r; req_per_page := 20 |}.

(** Lines 43-47, up to the point where the function waits for [fetch].
    [Some q]: the request [q] is in flight; [None]: returned at the
    guard. *)
Definition fetchSessions_start (r : Render) : Eff (option Request) :=
  if fetchSessions_guard r then ret None
  else
    setLoading true ;;
    send (fetchRequest r) ;;
    ret (Some (fetchRequest r)).

Definition failedToFetch : JS.Error :=
  JS.mkError "Failed to fetch sessions. Please try again.".

(** The [TypeError] of [undefined.sort(...)]; the wording of the message
    is the engine's, here V8's. *)
Definition sortOfUndefined : JS.Error :=
  JS.mkError "Cannot read properties of undefined (reading 'sort')".

(** [data.total_pages || null]: an absent field and [0] are both falsy. *)
Definition orNull (v : option Z) : option Z :=
  match v with
  | Some 0 => None
  | Some n => Some n
  | None => None
  end.

(** The body of the [try] block from the settlement of [fetch] on
    (lines 47-70). *)
Definition fetchSessions_try (res : FetchResult) : Eff unit :=
  match res with
  | Rejected e => throw e
  | Response status body =>
      if negb (ok status) then throw failedToFetch
      else
        match body with
        | Malformed e => throw e
        | Json data =>
            setTotalPages (orNull (total_pages data)) ;;
            match chat_sessions data with
            | None => throw sortOfUndefined
            | Some fetched =>
                let sortedSessions := JS.sort compareSessions fetched in
                setSessions (fun prevSessions =>
                  let combinedSessions := prevSessions ++ sortedSessions in
                  JS.sort compareSessions combinedSessions) ;;
                setPage (fun prevPage => prevPage + 1)
            end
        end
  end.

(** Lines 47-76: what runs once the request has settled. *)
Definition fetchSessions_resume (res : FetchResult) : Eff unit :=
  try_catch_finally
    (fetchSessions_try res)
    (fun error =>
       setError (Some (JS.message error)) ;;
       setSnackbarVisible true)
    (setLoading false).

(** One invocation run to completion with no other event in between. *)
Definition fetchSessions (r : Render) (res : FetchResult) : Eff unit :=
  q <- fetchSessions_start r ;;
  match q with
  | None => ret tt
  | Some _ => fetchSessions_resume res
  end.

(** ** [handleSessionClick] (lines 97-106) *)

Definition handleSessionClick (r : Render) (sessionId : Z) : Eff unit :=
  match find (fun session => ChatSession.id session =? sessionId)
             (sessions r) with
  | Some selected =>
      setSelectedSession (Some sessionId) ;;
      setMessages (ChatSession.messages selected)
  | None => ret tt
  end.

(** ** [filteredSessions] (lines 118-128) *)

(** [new Date(session.messages[0]?.timestamp || 0)] *)
Definition sessionDate (session : ChatSession.t) : JS.number :=
  getTime
    match ChatSession.messages session with
    | m :: _ =>
        if JS.truthy (Message.timestamp m)
        then OfString (Message.timestamp m)
        else OfNumber 0
    | [] => OfNumber 0
    end.

Definition isWithinDateRange (r : Render) (session : ChatSession.t) : bool :=
  let sessionDate := sessionDate session in
  (negb (JS.truthy (startDate r))
   || JS.ge sessionDate (getTime (OfString (startDate r))))
  &&
  (negb (JS.truthy (endDate r))
   || JS.le sessionDate (getTime (OfString (endDate r)))).

Definition retained (r : Render) (session : ChatSession.t) : bool :=
  JS.includes (toLowerCase (ChatSession.name session))
              (toLowerCase (searchQuery r))
  && isWithinDateRange r session.

Definition filteredSessions (r : Render) : list ChatSession.t :=
  filter (retained r) (sessions r).

(** ** The events of the page

    [Load res]: the [fetchSessions] of the current render is invoked
    (by the effect of line 79 or by the observer of line 87) and its
    request, if any, settles with [res] before anything else happens. *)
Inductive Event : Type :=
| Load (res : FetchResult)
| Click (sessionId : Z)
| TypeQuery (value : string)
| PickStartDate (value : string)
| PickEndDate (value : string)
| ToggleSearch
| ToggleDateRange
| CloseSnackbar.

Definition handle (e : Event) (w : World) : World :=
  let r : Render := store w in
  snd (match e with
       | Load res => fetchSessions r res w
       | Click sessionId => handleSessionClick r sessionId w
       | TypeQuery value => setSearchQuery value w
       | PickStartDate value => setStartDate value w
       | PickEndDate value => setEndDate value w
       | ToggleSearch => setShowSearch (negb (showSearch r)) w
       | ToggleDateRange => setShowDateRange (negb (showDateRange r)) w
       | CloseSnackbar => setSnackbarVisible false w
       end).

Definition run (es : list Event) (w : World) : World :=
  fold_left (fun w e => handle e w) es w.

End MessagingInterface.

(* ------------------------------------------------------------------ *)
(** * The component [Snackbar] (snackbar.tsx) and the timers of the host *)

Module Snackbar.

Local Open Scope N_scope.

(** A function value is represented by its identity: [useEffect]
    compares dependencies with [Object.is], and a timer only has to
    remember which function to call.  The prop [type] selects an icon
    and nothing else; it is left out. *)
Record Props : Type := mkProps {
  message : string;
  isVisible : bool;
  onClose : nat
}.

(** ** [setTimeout] / [clearTimeout], with time in milliseconds *)

Record Timer : Type := mkTimer {
  timerId : nat;
  due : N;
  callback : nat
}.

Record Host : Type := mkHost {
  now : N;
  fresh : nat;
  timers : list Timer;
  called : list nat
}.

Definition boot : Host :=
  {| now := 0; fresh := O; timers := []; called := [] |}.

Definition setTimeout (f : nat) (delay : N) (h : Host) : nat * Host :=
  (fresh h,
   {| now := now h; fresh := S (fresh h);
      timers := timers h ++ [ {| timerId := fresh h; due := now h + delay;
                                 callback := f |} ];
      called := called h |}).

Definition clearTimeout (timer : nat) (h : Host) : Host :=
  {| now := now h; fresh := fresh h;
     timers := filter (fun t => negb (Nat.eqb (timerId t) timer)) (timers h);
     called := called h |}.

(** [dt] milliseconds pass: the timers that have come due run, each
    once, and are gone. *)
Definition elapse (dt : N) (h : Host) : Host :=
  let t' := now h + dt in
  {| now := t'; fresh := fresh h;
     timers := filter (fun t => t' <? due t) (timers h);
     called := called h
               ++ map callback (filter (fun t => due t <=? t') (timers h)) |}.

(** ** The effect of lines 19-24 *)

(** What React keeps for the hook: the dependencies of the last run
    ([[isVisible, onClose]]) and the cleanup it returned, here the timer
    to clear. *)
Record Hook : Type := mkHook {
  deps : bool * nat;
  cleanup : option nat
}.

Definition effect (p : Props) (h : Host) : option nat * Host :=
  if isVisible p then
    let (timer, h') := setTimeout (onClose p) 3000 h in
    (Some timer, h')
  else (None, h).

Definition runCleanup (c : option nat) (h : Host) : Host :=
  match c with
  | Some timer => clearTimeout timer h
  | None => h
  end.

Definition sameDeps (a b : bool * nat) : bool :=
  Bool.eqb (fst a) (fst b) && Nat.eqb (snd a) (snd b).

(** Whether a commit runs the effect: on mount, and on an update when
    a dependency differs from the last run. *)
Definition reruns (p : Props) (k : option Hook) : bool :=
  match k with
  | None => true
  | Some k0 => negb (sameDeps (deps k0) (isVisible p, onClose p))
  end.

(** A commit of the component: when the effect is to run, the cleanup
    of the previous run (if any) runs first. *)
Definition commit (p : Props) (k : option Hook) (h : Host) : Hook * Host :=
  match k with
  | None =>
      let (c, h') := effect p h in
      ({| deps := (isVisible p, onClose p); cleanup := c |}, h')
  | Some k0 =>
      if reruns p k then
        let (c, h') := effect p (runCleanup (cleanup k0) h) in
        ({| deps := (isVisible p, onClose p); cleanup := c |}, h')
      else (k0, h)
  end.

Definition unmount (k : Hook) (h : Host) : Host := runCleanup (cleanup k) h.

(** ** The life of one instance *)

Inductive Step : Type :=
| Rendered (p : Props)
| Elapsed (dt : N)
| Removed.

Record Instance : Type := mkInstance {
  hook : option Hook;
  host : Host
}.

Definition start : Instance := {| hook := None; host := boot |}.

Definition step (s : Step) (i : Instance) : Instance :=
  match s with
  | Rendered p =>
      let (k, h) := commit p (hook i) (host i) in
      {| hook := Some k; host := h |}
  | Elapsed dt => {| hook := hook i; host := elapse dt (host i) |}
  | Removed =>
      match hook i with
      | Some k => {| hook := None; host := unmount k (host i) |}
      | None => i
      end
  end.

Definition steps (l : list Step) (i : Instance) : Instance :=
  fold_left (fun i s => step s i) l i.

(** The timer a run of the effect schedules on the host [h]. *)
Definition scheduled (p : Props) (h : Host) : Timer :=
  {| timerId := fresh h; due := now h + 3000; callback := onClose p |}.

Definition total (dts : list N) : N := fold_right N.add 0 dts.

(** The pending timers are none, or the one the hook will clear. *)
Definition wellTimed (i : Instance) : Prop :=
  timers (host i) = [] \/
  exists k t d,
    hook i = Some k /\ cleanup k = Some t /\
    timers (host i) = [ {| timerId := t; due := d; callback := snd (deps k) |} ].

(** The props [MessagingInterface] passes (lines 132-136):
    [message={error || ""}], [isVisible={isSnackbarVisible}] and an
    arrow function written inline, hence a new function at every
    render; [n] numbers the renders. *)
Definition propsOfRender (n : nat) (r : Render) : Props :=
  {| message := match error r with
                | Some m => if JS.truthy m then m else ""%string
                | None => ""%string
                end;
     isVisible := isSnackbarVisible r;
     onClose := n |}.

End Snackbar.

(* ------------------------------------------------------------------ *)
(** * The notions the specification is worded in *)

Module Spec.

(** Two characters that differ at most by the case of an ASCII letter. *)
Definition sameLetter (a b : ascii) : Prop :=
  let x := nat_of_ascii a in
  let y := nat_of_ascii b in
  (x = y \/ (65 <= x <= 90 /\ y = x + 32) \/ (65 <= y <= 90 /\ x = y + 32))%nat.

Inductive equalIgnoringCase : string -> string -> Prop :=
| eic_empty : equalIgnoringCase "" ""
| eic_letter a b s t :
    sameLetter a b -> equalIgnoringCase s t ->
    equalIgnoringCase (String a s) (String b t).

(** [q] occurs in [s] up to case. *)
Definition containsIgnoringCase (s q : string) : Prop :=
  exists pre mid post,
    s = (pre ++ mid ++ post)%string /\ equalIgnoringCase mid q.

(** [l'] keeps elements of [l] in their order. *)
Inductive Subsequence {A : Type} : list A -> list A -> Prop :=
| sub_nil : Subsequence [] []
| sub_keep a l' l : Subsequence l' l -> Subsequence (a :: l') (a :: l)
| sub_drop a l' l : Subsequence l' l -> Subsequence l' (a :: l).

Section Recency.
Variable Date_parse : string -> JS.number.

(** The instants of all the messages; [None] when one is not a date. *)
Fixpoint messageTimes (ms : list Message.t) : option (list Z) :=
  match ms with
  | [] => Some []
  | m :: ms' =>
      match Date_parse (Message.timestamp m), messageTimes ms' with
      | Some t, Some ts => Some (t :: ts)
      | _, _ => None
      end
  end.

(** The most recent message timestamp, the epoch without messages. *)
Definition mostRecent (s : ChatSession.t) : option Z :=
  match messageTimes (ChatSession.messages s) with
  | Some [] => Some 0
  | Some (t :: ts) => Some (fold_left Z.max ts t)
  | None => None
  end.

Definition recency (s : ChatSession.t) : Z :=
  match mostRecent s with
  | Some t => t
  | None => 0
  end.

Fixpoint descending (ts : list Z) : bool :=
  match ts with
  | a :: ((b :: _) as rest) => (b <=? a) && descending rest
  | _ => true
  end.

(** The convention of the backend (data model): every timestamp is a
    date and the messages come most recent first. *)
Definition recentFirst (s : ChatSession.t) : bool :=
  match messageTimes (ChatSession.messages s) with
  | Some ts => descending ts
  | None => false
  end.

(** [a] is at least as recent as [b]. *)
Definition notOlder (a b : ChatSession.t) : Prop :=
  exists ta tb, mostRecent a = Some ta /\ mostRecent b = Some tb /\ tb <= ta.

(** Descending order of the most recent message timestamp. *)
Definition newestFirst (l : list ChatSession.t) : Prop :=
  StronglySorted notOlder l.

(** The date condition of the filter: the most recent message
    timestamp lies in the closed range, an unset bound (the empty
    string) not constraining. *)
Definition inRange (startDate endDate : string) (s : ChatSession.t) : Prop :=
  (startDate = "" \/
   exists t b, mostRecent s = Some t /\ Date_parse startDate = Some b /\ b <= t)
  /\
  (endDate = "" \/
   exists t e, mostRecent s = Some t /\ Date_parse endDate = Some e /\ t <= e).
End Recency.

End Spec.

(** ** Outcomes of a request, as the specification sorts them *)

(** A failed fetch and the message it carries: a transport error, a
    status outside 200-299, a body that is not JSON, or a body without
    the session array. *)
Inductive Failure : FetchResult -> string -> Prop :=
| transport_error e : Failure (Rejected e) (JS.message e)
| bad_status status body :
    ok status = false ->
    Failure (Response status body)
            "Failed to fetch sessions. Please try again."
| parse_error status e :
    ok status = true -> Failure (Response status (Malformed e)) (JS.message e)
| missing_sessions status d :
    ok status = true -> chat_sessions d = None ->
    Failure (Response status (Json d))
            "Cannot read properties of undefined (reading 'sort')".

(** A successful fetch returning the sessions [fetched]. *)
Inductive Success : FetchResult -> Data -> list ChatSession.t -> Prop :=
| success status d fetched :
    ok status = true -> chat_sessions d = Some fetched ->
    Success (Response status (Json d)) d fetched.

(** How many sessions of [l] carry the id [i]. *)
Definition occurrences (i : Z) (l : list ChatSession.t) : nat :=
  List.length (filter (fun s => ChatSession.id s =? i) l).

(** The state after a selection of [s]. *)
Definition selected (s : ChatSession.t) (st : State) : State :=
  {| sessions := sessions st; selectedSession := Some (ChatSession.id s);
     messages := ChatSession.messages s; page := page st;
     searchQuery := searchQuery st; totalPages := totalPages st;
     loading := loading st; error := error st;
     isSnackbarVisible := isSnackbarVisible st; startDate := startDate st;
     endDate := endDate st; showSearch := showSearch st;
     showDateRange := showDateRange st |}.

(* ------------------------------------------------------------------ *)
(** * Sample data *)

Module Sample.

Definition msg (i : Z) (who : Action) (text when : string) : Message.t :=
  {| Message.id := i; Message.content := text; Message.action := who;
     Message.timestamp := when |}.

(** Session 7 with three messages, most recent first. *)
Definition alice : ChatSession.t :=
  {| ChatSession.id := 7; ChatSession.name := "Alice Johnson";
     ChatSession.messages :=
       [ msg 3 AI "You are welcome." "2024-03-10T09:15:00Z";
         msg 2 USER "Thanks!" "2024-03-10T09:14:30Z";
         msg 1 USER "Hello" "2024-03-09T18:00:00Z" ];
     ChatSession.message_count := 3; ChatSession.role := None |}.

(** A session whose only message is dated 2024-01-05. *)
Definition bob : ChatSession.t :=
  {| ChatSession.id := 8; ChatSession.name := "bob";
     ChatSession.messages := [ msg 1 USER "Ping" "2024-01-05" ];
     ChatSession.message_count := 1; ChatSession.role := None |}.

Definition carol : ChatSession.t :=
  {| ChatSession.id := 9; ChatSession.name := "Carol";
     ChatSession.messages := [ msg 1 AI "Hi Carol" "2023-11-20T12:00:00Z" ];
     ChatSession.message_count := 1; ChatSession.role := Some "admin" |}.

(** A session without messages. *)
Definition idle : ChatSession.t :=
  {| ChatSession.id := 10; ChatSession.name := "Idle";
     ChatSession.messages := []; ChatSession.message_count := 0;
     ChatSession.role := None |}.

(** A second copy of session 7, as an overlapping page would carry. *)
Definition alice_again : ChatSession.t :=
  {| ChatSession.id := 7; ChatSession.name := "Alice Johnson";
     ChatSession.messages :=
       [ msg 4 USER "One more thing" "2024-03-11T08:00:00Z" ];
     ChatSession.message_count := 4; ChatSession.role := None |}.

Definition page_of (total : option Z) (l : list ChatSession.t) : FetchResult :=
  Response 200 (Json {| total_pages := total; chat_sessions := Some l |}).

Definition http500 : FetchResult :=
  Response 500 (Malformed (JS.mkError "Unexpected token < in JSON")).

Definition loaded (l : list ChatSession.t) : State :=
  {| sessions := l; selectedSession := None; messages := []; page := 2;
     searchQuery := ""; totalPages := Some 3; loading := false;
     error := None; isSnackbarVisible := false; startDate := "";
     endDate := ""; showSearch := false; showDateRange := false |}.

Definition filtering (l : list ChatSession.t) (q from to : string) : State :=
  {| sessions := l; selectedSession := None; messages := []; page := 2;
     searchQuery := q; totalPages := Some 3; loading := false;
     error := None; isSnackbarVisible := false; startDate := from;
     endDate := to; showSearch := true; showDateRange := true |}.

(** All pages loaded: the cursor is past the total. *)
Definition exhausted : State :=
  {| sessions := [alice; bob]; selectedSession := None; messages := [];
     page := 2; searchQuery := ""; totalPages := Some 1; loading := false;
     error := None; isSnackbarVisible := false; startDate := "";
     endDate := ""; showSearch := false; showDateRange := false |}.

Definition world (st : State) : World := {| store := st; network := [] |}.

End Sample.

(* ------------------------------------------------------------------ *)
(** * The rest of the component: the loading effect, the observer of the
      last row, the chat pane *)

(** ** The effect of lines 79-81

    [useCallback] hands out a new [fetchSessions] exactly when one of
    [page], [loading], [totalPages] differs from the previous render
    (line 77), and the effect, whose only dependency is that function,
    runs on mount and whenever the function is new.  The function it
    calls was created with the current values of the three variables,
    the only ones it reads. *)
Module Lifecycle.

Definition sameFetchSessions (a b : Render) : bool :=
  (page a =? page b) && Bool.eqb (loading a) (loading b) &&
  match totalPages a, totalPages b with
  | Some x, Some y => x =? y
  | None, None => true
  | _, _ => false
  end.

(** The mounted component: the world, the bindings of the last commit
    ([None] before the first) and the requests awaiting their answer,
    oldest first. *)
Record Mounted : Type := mkMounted {
  world : World;
  lastRender : option Render;
  inflight : list Request
}.

Definition mount : Mounted :=
  {| world := initialWorld; lastRender := None; inflight := [] |}.

Definition effectRuns (m : Mounted) : bool :=
  match lastRender m with
  | None => true
  | Some previous => negb (sameFetchSessions previous (store (world m)))
  end.

(** A render is committed and its effects run. *)
Definition render (m : Mounted) : Mounted :=
  let r : Render := store (world m) in
  if effectRuns m then
    match fetchSessions_start r (world m) with
    | (JS.Normal (Some q), w') =>
        {| world := w'; lastRender := Some r; inflight := inflight m ++ [q] |}
    | (_, w') =>
        {| world := w'; lastRender := Some r; inflight := inflight m |}
    end
  else {| world := world m; lastRender := Some r; inflight := inflight m |}.

Section Backend.
Variable Date_parse : string -> JS.number.
(** What the backend answers to a request for a page. *)
Variable serve : Z -> FetchResult.

(** The oldest request in flight settles. *)
Definition respond (m : Mounted) : Mounted :=
  match inflight m with
  | [] => m
  | q :: rest =>
      {| world := snd (fetchSessions_resume Date_parse (serve (req_page q))
                         (world m));
         lastRender := lastRender m;
         inflight := rest |}
  end.

(** A render (which may start a request), the render that shows the
    spinner while the request is in flight, and the answer. *)
Definition cycle (m : Mounted) : Mounted := respond (render (render m)).

Definition cycles (n : nat) : Mounted := Nat.iter n cycle mount.
End Backend.

Definition requestFor (p : Z) : Request :=
  {| req_url := API_URL; req_page := p; req_per_page := 20 |}.


(** An answer from which no JSON body is read: the transport failed,
    the status is outside 200-299, or the body does not parse. *)
Definition noJson (res : FetchResult) : bool :=
  match res with
  | Rejected _ => true
  | Response status (Malformed _) => true
  | Response status (Json _) => negb (ok status)
  end.

End Lifecycle.

(** ** [lastSessionElementRef] (lines 83-95) and the observers *)
Module Observer.

(** An [IntersectionObserver]: the render whose [fetchSessions] its
    callback calls, and the nodes it observes. *)
Record IntersectionObserver : Type := mkObserver {
  creator : Render;
  targets : list nat
}.

(** The observers created so far, in order of creation, and the cell
    [observer.current] (line 40). *)
Record Browser : Type := mkBrowser {
  observers : list IntersectionObserver;
  current : option nat
}.

Definition noObserver : Browser := {| observers := []; current := None |}.

(** Apply [f] to the [i]-th element. *)
Fixpoint adjust {A} (f : A -> A) (i : nat) (l : list A) : list A :=
  match l, i with
  | [], _ => []
  | a :: l', O => f a :: l'
  | a :: l', S i' => a :: adjust f i' l'
  end.

(** [observers[i].disconnect()] *)
Definition disconnect (i : nat) (b : Browser) : Browser :=
  {| observers :=
       adjust (fun o => {| creator := creator o; targets := [] |}) i
              (observers b);
     current := current b |}.

(** [observers[i].observe(node)]; observing a node twice counts once. *)
Definition observe (i : nat) (node : nat) (b : Browser) : Browser :=
  {| observers :=
       adjust (fun o =>
                 {| creator := creator o;
                    targets := if existsb (Nat.eqb node) (targets o)
                               then targets o else targets o ++ [node] |})
              i (observers b);
     current := current b |}.

(** The ref callback of the render [r], called with a node or [null]. *)
Definition lastSessionElementRef (r : Render) (node : option nat)
    (b : Browser) : Browser :=
  if fetchSessions_guard r then b
  else
    let b1 := match current b with
              | Some i => disconnect i b
              | None => b
              end in
    let fresh := List.length (observers b1) in
    let b2 := {| observers := observers b1
                              ++ [ {| creator := r; targets := [] |} ];
                 current := Some fresh |} in
    match node with
    | Some n => observe fresh n b2
    | None => b2
    end.

(** The callback of lines 87-91, for the first entry of a notification. *)
Definition notify (o : IntersectionObserver) (isIntersecting : bool)
    : Eff (option Request) :=
  if isIntersecting then fetchSessions_start (creator o) else ret None.

Definition calls (l : list (Render * option nat)) (b : Browser) : Browser :=
  fold_left (fun b c => lastSessionElementRef (fst c) (snd c) b) l b.

(** Every node some observer observes. *)
Definition watched (b : Browser) : list nat := flat_map targets (observers b).

(** [observer.current] is the observer created last, it observes at
    most one node, and every earlier observer is disconnected. *)
Definition tidy (b : Browser) : Prop :=
  b = noObserver \/
  exists l o,
    observers b = l ++ [o] /\
    Forall (fun x => targets x = []) l /\
    (List.length (targets o) <= 1)%nat /\
    current b = Some (List.length l).

End Observer.

(** ** What the component draws (lines 130-267) *)
Module View.

(** A message as drawn: on the right for the user, on the left for the
    assistant, with its text and its formatted time. *)
Record Bubble : Type := mkBubble {
  alignRight : bool;
  text : string;
  stamp : string
}.

Inductive Pane : Type :=
| Placeholder
| Conversation (title : option string) (bubbles : list Bubble).

(** The second line of a row (line 206). *)
Inductive Subtitle : Type :=
| Role (role : string)
| Ago (phrase : string)
| Blank.

Record Row : Type := mkRow {
  key : Z;
  label : string;
  carriesRef : bool;
  highlighted : bool;
  subtitle : Subtitle
}.

Record Page : Type := mkPage {
  searchBox : option string;
  dateInputs : option (string * string);
  rows : list Row;
  spinner : bool;
  pane : Pane
}.

(** Evaluation that may throw: the first error ends it. *)
Definition andThen {A B} (c : JS.Completion A) (k : A -> JS.Completion B)
    : JS.Completion B :=
  match c with
  | JS.Normal a => k a
  | JS.Throw e => JS.Throw e
  end.

(** [l.map(f)] *)
Fixpoint each {A B} (f : A -> JS.Completion B) (l : list A)
    : JS.Completion (list B) :=
  match l with
  | [] => JS.Normal []
  | a :: l' =>
      andThen (f a) (fun b =>
      andThen (each f l') (fun bs => JS.Normal (b :: bs)))
  end.

(** [selectedSession ? ... : ...]: [null] and [0] are falsy. *)
Definition truthyId (v : option Z) : bool :=
  match v with
  | Some 0 => false
  | Some _ => true
  | None => false
  end.

(** [sessions.find((s) => s.id === selectedSession)?.name] *)
Definition title (r : Render) : option string :=
  match selectedSession r with
  | Some i =>
      option_map ChatSession.name
        (find (fun s => ChatSession.id s =? i) (sessions r))
  | None => None
  end.

(** The bubble of [message] once its time is formatted as [time]. *)
Definition drawn (message : Message.t) (time : string) : Bubble :=
  {| alignRight := match Message.action message with
                   | USER => true
                   | AI => false
                   end;
     text := Message.content message;
     stamp := time |}.

Section Render.
Variable Date_parse : string -> JS.number.
Variable toLowerCase : string -> string.

(** The date library: [format(date, "HH:mm")], which reads the host's
    time zone, and [formatDistanceToNow(date, { addSuffix: true })],
    which reads its clock.  Either may throw. *)
Variable format_HHmm : JS.number -> JS.Completion string.
Variable formatDistanceToNow : JS.number -> JS.Completion string.

(** Lines 108-111. *)
Definition formatSessionTimestamp (timestamp : string) : JS.Completion string :=
  let date := getTime Date_parse (OfString timestamp) in
  formatDistanceToNow date.

(** Lines 113-116. *)
Definition formatMessageTimestamp (timestamp : string) : JS.Completion string :=
  let date := getTime Date_parse (OfString timestamp) in
  andThen (format_HHmm date) (fun t => JS.Normal ("Today " ++ t)%string).

(** [session.role || (session.messages.length > 0 &&
    formatSessionTimestamp(session.messages[0].timestamp))] *)
Definition subtitleOf (session : ChatSession.t) : JS.Completion Subtitle :=
  let otherwise :=
    match ChatSession.messages session with
    | [] => JS.Normal Blank
    | m :: _ =>
        andThen (formatSessionTimestamp (Message.timestamp m))
                (fun phrase => JS.Normal (Ago phrase))
    end in
  match ChatSession.role session with
  | Some role => if JS.truthy role then JS.Normal (Role role) else otherwise
  | None => otherwise
  end.

(** One row of the list (lines 188-209); [last] tells whether it is the
    row of index [filteredSessions.length - 1]. *)
Definition row (r : Render) (session : ChatSession.t) (last : bool)
    : JS.Completion Row :=
  andThen (subtitleOf session) (fun sub =>
  JS.Normal
    {| key := ChatSession.id session;
       label := ChatSession.name session;
       carriesRef := last;
       highlighted := match selectedSession r with
                      | Some i => i =? ChatSession.id session
                      | None => false
                      end;
       subtitle := sub |}).

Fixpoint rowsOf (r : Render) (l : list ChatSession.t)
    : JS.Completion (list Row) :=
  match l with
  | [] => JS.Normal []
  | session :: rest =>
      andThen (row r session (match rest with [] => true | _ => false end))
        (fun x =>
      andThen (rowsOf r rest) (fun xs => JS.Normal (x :: xs)))
  end.

(** Lines 238-256. *)
Definition bubble (message : Message.t) : JS.Completion Bubble :=
  andThen (formatMessageTimestamp (Message.timestamp message))
          (fun time => JS.Normal (drawn message time)).

(** Lines 221-265. *)
Definition chatPane (r : Render) : JS.Completion Pane :=
  if truthyId (selectedSession r)
  then andThen (each bubble (messages r))
               (fun bubbles => JS.Normal (Conversation (title r) bubbles))
  else JS.Normal Placeholder.

(** The value the component returns, or the error its evaluation throws
    (which, without an error boundary, takes the page down). *)
Definition render (r : Render) : JS.Completion Page :=
  andThen (rowsOf r (filteredSessions Date_parse toLowerCase r)) (fun rs =>
  andThen (chatPane r) (fun p =>
  JS.Normal
    {| searchBox := if showSearch r then Some (searchQuery r) else None;
       dateInputs := if showDateRange r
                     then Some (startDate r, endDate r) else None;
       rows := rs;
       spinner := loading r;
       pane := p |})).
End Render.

End View.

(** ** Notions used to state what the page keeps *)

(** The logs of requested pages and the cursors that sequential loading
    can produce: each request asks for the cursor, which then stays (the
    request failed) or moves on by one (it succeeded). *)
Inductive Trail : list Z -> Z -> Prop :=
| trail_start : Trail [] 1
| trail_stay ps p : Trail ps p -> Trail (ps ++ [p]) p
| trail_advance ps p : Trail ps p -> Trail (ps ++ [p]) (p + 1).

(** The fields [fetchSessions] never writes. *)
Definition sameView (a b : State) : Prop :=
  selectedSession a = selectedSession b /\
  messages a = messages b /\
  searchQuery a = searchQuery b /\
  startDate a = startDate b /\
  endDate a = endDate b /\
  showSearch a = showSearch b /\
  showDateRange a = showDateRange b.

(** The sessions an event brings. *)
Definition delivered (e : Event) : list ChatSession.t :=
  match e with
  | Load (Response _ (Json d)) =>
      match chat_sessions d with
      | Some l => l
      | None => []
      end
  | _ => []
  end.

Definition isClose (e : Event) : bool :=
  match e with
  | CloseSnackbar => true
  | _ => false
  end.

(** ** More sample data *)
Module Sample2.

(** A session as recent as [Sample.bob]. *)
Definition twin : ChatSession.t :=
  {| ChatSession.id := 11; ChatSession.name := "Bob's twin";
     ChatSession.messages := [Sample.msg 5 AI "Pong" "2024-01-05"];
     ChatSession.message_count := 1; ChatSession.role := None |}.

(** A session with id 0. *)
Definition zero : ChatSession.t :=
  {| ChatSession.id := 0; ChatSession.name := "Zero";
     ChatSession.messages := [Sample.msg 1 USER "Anyone?" "2024-02-02"];
     ChatSession.message_count := 1; ChatSession.role := None |}.

(** A session whose timestamp the host cannot read. *)
Definition undated : ChatSession.t :=
  {| ChatSession.id := 12; ChatSession.name := "Dana";
     ChatSession.messages := [Sample.msg 1 USER "Hi" "last Tuesday"];
     ChatSession.message_count := 1; ChatSession.role := None |}.

Definition data (total : option Z) (l : list ChatSession.t) : Data :=
  {| total_pages := total; chat_sessions := Some l |}.

Definition entry (p : Z) : ChatSession.t :=
  {| ChatSession.id := p; ChatSession.name := "Session";
     ChatSession.messages := []; ChatSession.message_count := 0;
     ChatSession.role := None |}.

(** A backend with [total] pages, one session on each. *)
Definition backend (total : Z) (p : Z) : FetchResult :=
  Sample.page_of (Some total) [entry p].


(** A backend that is down. *)
Definition down (p : Z) : FetchResult := Sample.http500.

(** Stand-ins for the date library, used to run examples: a host in the
    UTC zone, and a clock of which only "some time ago" is told.  Both
    throw on an invalid date. *)
Definition invalidTime : JS.Error := JS.mkError "Invalid time value".

Definition twoDigits (n : Z) : string :=
  String (ascii_of_nat (48 + Z.to_nat (n / 10)))
    (String (ascii_of_nat (48 + Z.to_nat (n mod 10))) "").

Definition utcHHmm (date : JS.number) : JS.Completion string :=
  match date with
  | Some t =>
      JS.Normal (twoDigits ((t / 3600000) mod 24) ++ ":"
                 ++ twoDigits ((t / 60000) mod 60))%string
  | None => JS.Throw invalidTime
  end.

Definition someTimeAgo (date : JS.number) : JS.Completion string :=
  match date with
  | Some _ => JS.Normal "some time ago"
  | None => JS.Throw invalidTime
  end.

End Sample2.

(* ------------------------------------------------------------------ *)
(** * Facts about the library functions *)

Section SortFacts.
Context {A : Type} (comparefn : A -> A -> JS.number).

Lemma insert_permutation (a : A) (l : list A) :
  Permutation (a :: l) (JS.insert comparefn a l).
Proof.
  induction l as [|b l IH]; simpl.
  - apply Permutation_refl.
  - destruct (JS.after comparefn a b).
    + eapply perm_trans; [apply perm_swap|].
      now apply perm_skip.
    + apply Permutation_refl.
Qed.

Lemma sort_permutation (l : list A) : Permutation l (JS.sort comparefn l).
Proof.
  induction l as [|a l IH]; simpl.
  - constructor.
  - eapply perm_trans; [apply perm_skip, IH|].
    apply insert_permutation.
Qed.

Lemma sort_length (l : list A) : List.length (JS.sort comparefn l) = List.length l.
Proof. symmetry. apply Permutation_length, sort_permutation. Qed.

Lemma sort_In (l : list A) (a : A) : In a (JS.sort comparefn l) <-> In a l.
Proof.
  split; apply Permutation_in;
    [apply Permutation_sym|]; apply sort_permutation.
Qed.

(** With a comparator that subtracts keys, as [compareSessions] does on
    valid dates, the result is in descending order of the key. *)
Section ByKey.
Variable key : A -> Z.

Lemma after_key (l : list A) (a b : A) :
  JS.subtractsKeys comparefn key l -> In a l -> In b l ->
  JS.after comparefn a b = (key a <? key b).
Proof.
  intros Hk Ha Hb. unfold JS.after. rewrite (Hk a b Ha Hb).
  destruct (Z.ltb_spec 0 (key b - key a)), (Z.ltb_spec (key a) (key b));
    try reflexivity; lia.
Qed.

Lemma insert_sorted (a : A) (l : list A) :
  JS.subtractsKeys comparefn key (a :: l) ->
  StronglySorted (JS.keyDescending key) l ->
  StronglySorted (JS.keyDescending key) (JS.insert comparefn a l).
Proof.
  intros Hk Hs. induction l as [|b l IH]; simpl.
  - repeat constructor.
  - rewrite (after_key (a :: b :: l)) by (simpl; auto).
    inversion Hs as [|? ? Hs' Hall]; subst.
    destruct (Z.ltb_spec (key a) (key b)) as [Hlt|Hge].
    + constructor.
      * apply IH; [|exact Hs'].
        intros x y Hx Hy. apply Hk; simpl in *; tauto.
      * rewrite Forall_forall in *. intros x Hx.
        apply (Permutation_in _ (Permutation_sym (insert_permutation a l)))
          in Hx.
        destruct Hx as [<-|Hx]; [unfold JS.keyDescending; lia|auto].
    + constructor; [exact Hs|].
      constructor; [exact Hge|].
      rewrite Forall_forall in *. intros x Hx.
      specialize (Hall x Hx). unfold JS.keyDescending in *. lia.
Qed.

Lemma sort_sorted (l : list A) :
  JS.subtractsKeys comparefn key l -> StronglySorted (JS.keyDescending key) (JS.sort comparefn l).
Proof.
  induction l as [|a l IH]; intros Hk; simpl.
  - constructor.
  - apply insert_sorted.
    + intros x y Hx Hy. apply Hk.
      * destruct Hx as [<-|Hx]; [now left|right; apply (proj1 (sort_In l x)), Hx].
      * destruct Hy as [<-|Hy]; [now left|right; apply (proj1 (sort_In l y)), Hy].
    + apply IH. intros x y Hx Hy. apply Hk; now right.
Qed.
End ByKey.
End SortFacts.

Lemma StronglySorted_weaken {A} (R R' : A -> A -> Prop) (l : list A) :
  (forall a b, In a l -> In b l -> R a b -> R' a b) ->
  StronglySorted R l -> StronglySorted R' l.
Proof.
  induction l as [|a l IH]; intros Himp Hs.
  - constructor.
  - inversion Hs as [|? ? Hs' Hall]; subst. constructor.
    + apply IH; [|exact Hs'].
      intros x y Hx Hy. apply Himp; now right.
    + rewrite Forall_forall in *. intros x Hx.
      apply Himp; [now left|now right|auto].
Qed.

Section StringFacts.

Lemma startsWith_spec (s q : string) :
  JS.startsWith s q = true <-> exists t, s = (q ++ t)%string.
Proof.
  revert s. induction q as [|a q IH]; intros s; simpl.
  - split; [intros _; now exists s|reflexivity].
  - destruct s as [|b s].
    + split; [discriminate|intros [t Ht]; discriminate].
    + rewrite andb_true_iff, Ascii.eqb_eq, IH. split.
      * intros [-> [t ->]]. now exists t.
      * intros [t Ht]. injection Ht as <- ->. split; [reflexivity|now exists t].
Qed.

Lemma includes_spec (s q : string) :
  JS.includes s q = true <->
  exists pre post, s = (pre ++ q ++ post)%string.
Proof.
  induction s as [|c s IH]; simpl.
  - rewrite orb_false_r, startsWith_spec. split.
    + intros [t Ht]. now exists ""%string, t.
    + intros [pre [post H]]. destruct pre; [now exists post|discriminate].
  - rewrite orb_true_iff, startsWith_spec, IH. split.
    + intros [[t Ht]|[pre [post H]]].
      * now exists ""%string, t.
      * exists (String c pre), post. simpl. now rewrite H.
    + intros [pre [post H]]. destruct pre as [|c' pre]; simpl in H.
      * left. now exists post.
      * right. injection H as _ H. now exists pre, post.
Qed.

Lemma nat_of_lowerChar (c : ascii) :
  nat_of_ascii (JS.lowerChar c) =
  if JS.isUpper c then (nat_of_ascii c + 32)%nat else nat_of_ascii c.
Proof.
  unfold JS.lowerChar. destruct (JS.isUpper c) eqn:E; [|reflexivity].
  apply nat_ascii_embedding.
  unfold JS.isUpper in E. apply andb_true_iff in E as [_ E].
  apply Nat.leb_le in E. lia.
Qed.

Lemma lowerChar_sameLetter (a b : ascii) :
  JS.lowerChar a = JS.lowerChar b <-> Spec.sameLetter a b.
Proof.
  assert (Hinj : forall x y, nat_of_ascii x = nat_of_ascii y -> x = y).
  { intros x y H. rewrite <- (ascii_nat_embedding x), <- (ascii_nat_embedding y).
    now rewrite H. }
  split.
  - intros H. apply (f_equal nat_of_ascii) in H.
    rewrite !nat_of_lowerChar in H. unfold Spec.sameLetter, JS.isUpper in *.
    destruct (Nat.leb_spec 65 (nat_of_ascii a)), (Nat.leb_spec (nat_of_ascii a) 90),
             (Nat.leb_spec 65 (nat_of_ascii b)), (Nat.leb_spec (nat_of_ascii b) 90);
      simpl in H; lia.
  - intros H. apply Hinj. rewrite !nat_of_lowerChar.
    unfold Spec.sameLetter, JS.isUpper in *.
    destruct (Nat.leb_spec 65 (nat_of_ascii a)), (Nat.leb_spec (nat_of_ascii a) 90),
             (Nat.leb_spec 65 (nat_of_ascii b)), (Nat.leb_spec (nat_of_ascii b) 90);
      simpl; lia.
Qed.

Lemma toLowerCase_equal (s t : string) :
  JS.asciiToLowerCase s = JS.asciiToLowerCase t <-> Spec.equalIgnoringCase s t.
Proof.
  split.
  - revert t. induction s as [|a s IH]; intros [|b t] H; simpl in H;
      try discriminate.
    + constructor.
    + injection H as Hc Hs. constructor.
      * now apply lowerChar_sameLetter.
      * now apply IH.
  - induction 1 as [|a b s t Hc _ IH]; simpl.
    + reflexivity.
    + apply lowerChar_sameLetter in Hc. now rewrite Hc, IH.
Qed.

Lemma toLowerCase_app (s t : string) :
  JS.asciiToLowerCase (s ++ t) = (JS.asciiToLowerCase s ++ JS.asciiToLowerCase t)%string.
Proof. induction s as [|a s IH]; simpl; [reflexivity|now rewrite IH]. Qed.

Lemma toLowerCase_split (s x y : string) :
  JS.asciiToLowerCase s = (x ++ y)%string ->
  exists a b, s = (a ++ b)%string /\
              JS.asciiToLowerCase a = x /\ JS.asciiToLowerCase b = y.
Proof.
  revert s. induction x as [|c x IH]; intros s H; simpl in H.
  - now exists ""%string, s.
  - destruct s as [|d s]; simpl in H; [discriminate|].
    injection H as Hc Hs. destruct (IH s Hs) as [a [b [-> [Ha Hb]]]].
    exists (String d a), b. simpl. now rewrite Hc, Ha.
Qed.

(** The name test of the filter is containment up to case. *)
Lemma includes_toLowerCase (s q : string) :
  JS.includes (JS.asciiToLowerCase s) (JS.asciiToLowerCase q) = true <->
  Spec.containsIgnoringCase s q.
Proof.
  rewrite includes_spec. unfold Spec.containsIgnoringCase. split.
  - intros [pre [post H]].
    apply toLowerCase_split in H as [a [r [-> [_ Hr]]]].
    apply toLowerCase_split in Hr as [m [b [-> [Hm _]]]].
    exists a, m, b. split; [reflexivity|now apply toLowerCase_equal].
  - intros [pre [mid [post [-> Hm]]]].
    apply toLowerCase_equal in Hm.
    exists (JS.asciiToLowerCase pre), (JS.asciiToLowerCase post).
    now rewrite !toLowerCase_app, Hm.
Qed.

Lemma includes_empty (s : string) : JS.includes s "" = true.
Proof. destruct s; reflexivity. Qed.

End StringFacts.

(* ------------------------------------------------------------------ *)
(** * The timestamp the code reads and the most recent message *)

Section RecencyFacts.
Variable Date_parse : string -> JS.number.
(** [Date.parse("")] is NaN on every host. *)
Hypothesis Date_parse_empty : Date_parse "" = None.

Lemma truthy_false (s : string) : JS.truthy s = false <-> s = "".
Proof. destruct s; simpl; split; congruence. Qed.

Lemma descending_bound (t : Z) (ts : list Z) :
  Spec.descending (t :: ts) = true -> Forall (fun x => x <= t) ts.
Proof.
  revert t. induction ts as [|b ts IH]; intros t H.
  - constructor.
  - simpl in H. apply andb_true_iff in H as [Hb H].
    apply Z.leb_le in Hb. constructor; [exact Hb|].
    eapply Forall_impl; [|apply (IH b H)]. simpl. intros; lia.
Qed.

Lemma fold_max_bounded (t : Z) (ts : list Z) :
  Forall (fun x => x <= t) ts -> fold_left Z.max ts t = t.
Proof.
  induction 1 as [|x ts Hx _ IH]; simpl; [reflexivity|].
  now rewrite Z.max_l.
Qed.

(** Under the backend's convention, [messages[0]] is the most recent
    message: both readings of the code give the most recent timestamp. *)
Lemma recentFirst_latest (s : ChatSession.t) :
  Spec.recentFirst Date_parse s = true ->
  exists t,
    Spec.mostRecent Date_parse s = Some t /\
    getTime Date_parse (latestMessage s) = Some t /\
    sessionDate Date_parse s = Some t.
Proof.
  unfold Spec.recentFirst, Spec.mostRecent, latestMessage, sessionDate.
  destruct (ChatSession.messages s) as [|m ms]; simpl.
  - intros _. now exists 0.
  - destruct (Date_parse (Message.timestamp m)) as [t|] eqn:Et; [|discriminate].
    destruct (Spec.messageTimes Date_parse ms) as [ts|]; [|discriminate].
    intros Hd. exists t.
    rewrite (fold_max_bounded t ts (descending_bound t ts Hd)).
    destruct (JS.truthy (Message.timestamp m)) eqn:Etr; simpl.
    + now rewrite Et.
    + apply truthy_false in Etr. rewrite Etr in Et. congruence.
Qed.

Lemma compareSessions_subtracts (l : list ChatSession.t) :
  Forall (fun s => Spec.recentFirst Date_parse s = true) l ->
  JS.subtractsKeys (compareSessions Date_parse) (Spec.recency Date_parse) l.
Proof.
  rewrite Forall_forall. intros Hl a b Ha Hb.
  destruct (recentFirst_latest a (Hl a Ha)) as [ta [Ma [La _]]].
  destruct (recentFirst_latest b (Hl b Hb)) as [tb [Mb [Lb _]]].
  unfold compareSessions, Spec.recency. now rewrite La, Lb, Ma, Mb.
Qed.

Lemma sort_newestFirst (l : list ChatSession.t) :
  Forall (fun s => Spec.recentFirst Date_parse s = true) l ->
  Spec.newestFirst Date_parse (JS.sort (compareSessions Date_parse) l).
Proof.
  intros Hl.
  apply (StronglySorted_weaken (JS.keyDescending (Spec.recency Date_parse))).
  - intros a b Ha Hb Hab. rewrite Forall_forall in Hl.
    apply sort_In in Ha, Hb.
    destruct (recentFirst_latest a (Hl a Ha)) as [ta [Ma _]].
    destruct (recentFirst_latest b (Hl b Hb)) as [tb [Mb _]].
    exists ta, tb. unfold JS.keyDescending, Spec.recency in Hab.
    rewrite Ma, Mb in Hab. auto.
  - apply sort_sorted. now apply compareSessions_subtracts.
Qed.

Lemma isWithinDateRange_spec (r : Render) (s : ChatSession.t) :
  Spec.recentFirst Date_parse s = true ->
  isWithinDateRange Date_parse r s = true <->
  Spec.inRange Date_parse (startDate r) (endDate r) s.
Proof.
  intros Hs. destruct (recentFirst_latest s Hs) as [t [Mt [_ Dt]]].
  unfold isWithinDateRange, Spec.inRange. rewrite Dt, Mt. simpl.
  rewrite andb_true_iff, !orb_true_iff, !negb_true_iff, !truthy_false.
  unfold JS.le, JS.ge.
  split; intros [H1 H2]; split.
  - destruct H1 as [H1|H1]; [now left|right].
    destruct (Date_parse (startDate r)) as [b|]; [|discriminate].
    exists t, b. apply Z.leb_le in H1. auto.
  - destruct H2 as [H2|H2]; [now left|right].
    destruct (Date_parse (endDate r)) as [e|]; [|discriminate].
    exists t, e. apply Z.leb_le in H2. auto.
  - destruct H1 as [H1|[t' [b [E [Hb Hle]]]]]; [now left|right].
    injection E as <-. rewrite Hb. now apply Z.leb_le.
  - destruct H2 as [H2|[t' [e [E [He Hle]]]]]; [now left|right].
    injection E as <-. rewrite He. now apply Z.leb_le.
Qed.

End RecencyFacts.

Lemma filter_Subsequence {A} (f : A -> bool) (l : list A) :
  Spec.Subsequence (filter f l) l.
Proof.
  induction l as [|a l IH]; simpl.
  - constructor.
  - destruct (f a); now constructor.
Qed.
Example Date_parse_iso_epoch : Date_parse_iso "1970-01-01" = Some 0.
Proof. reflexivity. Qed.

Example Date_parse_iso_day :
  Date_parse_iso "2024-01-05" = Some 1704412800000.
Proof. reflexivity. Qed.

Example Date_parse_iso_instant :
  Date_parse_iso "2024-01-05T10:30:00.250Z" = Some 1704450600250.
Proof. reflexivity. Qed.

Example Date_parse_iso_invalid :
  Date_parse_iso "" = None /\ Date_parse_iso "yesterday" = None /\
  Date_parse_iso "2023-02-29" = None.
Proof. repeat split; reflexivity. Qed.

(* ------------------------------------------------------------------ *)
(** * The filter *)

Example filter_date_range_excludes :
  filteredSessions Date_parse_iso JS.asciiToLowerCase
    (Sample.filtering [Sample.bob] "" "2024-02-01" "") = [].
Proof. reflexivity. Qed.

Example filter_date_range_includes :
  filteredSessions Date_parse_iso JS.asciiToLowerCase
    (Sample.filtering [Sample.bob] "" "2023-01-01" "2024-12-31") = [Sample.bob].
Proof. reflexivity. Qed.

Example filter_name_any_case :
  filteredSessions Date_parse_iso JS.asciiToLowerCase
    (Sample.filtering [Sample.alice; Sample.bob; Sample.carol] "ALICE" "" "")
  = [Sample.alice] /\
  filteredSessions Date_parse_iso JS.asciiToLowerCase
    (Sample.filtering [Sample.alice; Sample.bob; Sample.carol] "alice" "" "")
  = [Sample.alice].
Proof. split; reflexivity. Qed.

(** The end bound is the instant the date string denotes (midnight UTC):
    a message later on the end day is outside the range. *)
Example filter_end_bound_is_an_instant :
  filteredSessions Date_parse_iso JS.asciiToLowerCase
    (Sample.filtering [Sample.alice] "" "" "2024-03-10") = [].
Proof. reflexivity. Qed.

Lemma filteredSessions_no_criteria (Date_parse : string -> JS.number)
    (toLowerCase : string -> string) (r : Render) :
  toLowerCase "" = "" ->
  searchQuery r = "" -> startDate r = "" -> endDate r = "" ->
  filteredSessions Date_parse toLowerCase r = sessions r.
Proof.
  intros H0 Hq Hs He. unfold filteredSessions.
  assert (H : forall s, retained Date_parse toLowerCase r s = true).
  { intros s. unfold retained, isWithinDateRange.
    rewrite Hq, Hs, He, H0. simpl. now rewrite includes_empty. }
  induction (sessions r) as [|a l IH]; simpl; [reflexivity|].
  now rewrite H, IH.
Qed.

(** For ASCII queries the filter depends on the query only up to case. *)
Lemma filteredSessions_query_case (Date_parse : string -> JS.number)
    (toLowerCase : string -> string)
    (l : list ChatSession.t) (q q' from to : string) :
  JS.agreesOnAscii toLowerCase ->
  JS.isAscii q = true -> JS.isAscii q' = true ->
  Spec.equalIgnoringCase q q' ->
  filteredSessions Date_parse toLowerCase (Sample.filtering l q from to) =
  filteredSessions Date_parse toLowerCase (Sample.filtering l q' from to).
Proof.
  intros Hhost Hq Hq' H. apply toLowerCase_equal in H.
  unfold filteredSessions. simpl. apply filter_ext. intros s.
  unfold retained, isWithinDateRange. simpl.
  now rewrite (Hhost q Hq), (Hhost q' Hq'), H.
Qed.

(** What the filter does for ASCII names and queries, the bounds being
    the instants [Date] reads from the date strings.  A loaded session
    whose messages follow the backend's convention is retained if and
    only if its name contains the query up to case and its most recent
    message timestamp, the epoch when it has no message, is not before
    the instant of [startDate] and not after the instant of [endDate],
    an unset bound not constraining; the empty query matches every name;
    the output keeps the sessions in their input order. *)
Lemma filteredSessions_retains
    (Date_parse : string -> JS.number) (toLowerCase : string -> string)
    (Date_parse_empty : Date_parse "" = None)
    (Hhost : JS.agreesOnAscii toLowerCase)
    (r : Render) (s : ChatSession.t)
    (Hs : Spec.recentFirst Date_parse s = true)
    (Hname : JS.isAscii (ChatSession.name s) = true)
    (Hquery : JS.isAscii (searchQuery r) = true) :
  (In s (filteredSessions Date_parse toLowerCase r) <->
   In s (sessions r) /\
   Spec.containsIgnoringCase (ChatSession.name s) (searchQuery r) /\
   Spec.inRange Date_parse (startDate r) (endDate r) s)
  /\ Spec.containsIgnoringCase (ChatSession.name s) ""
  /\ Spec.Subsequence (filteredSessions Date_parse toLowerCase r) (sessions r).
Proof.
  split; [|split].
  - unfold filteredSessions. rewrite filter_In. unfold retained.
    rewrite (Hhost _ Hname), (Hhost _ Hquery).
    rewrite andb_true_iff, includes_toLowerCase.
    rewrite (isWithinDateRange_spec Date_parse Date_parse_empty r s Hs).
    tauto.
  - exists ""%string, ""%string, (ChatSession.name s).
    split; [reflexivity|constructor].
  - apply filter_Subsequence.
Qed.

Lemma filteredSessions_retains_witness :
  Date_parse_iso "" = None /\
  Spec.recentFirst Date_parse_iso Sample.alice = true /\
  (In Sample.alice
      (filteredSessions Date_parse_iso JS.asciiToLowerCase
         (Sample.filtering [Sample.bob; Sample.alice] "JOHN" "2024-03-01" "")) <->
   In Sample.alice [Sample.bob; Sample.alice] /\
   Spec.containsIgnoringCase "Alice Johnson" "JOHN" /\
   Spec.inRange Date_parse_iso "2024-03-01" "" Sample.alice).
Proof.
  split; [reflexivity|split; [reflexivity|]].
  exact (proj1 (filteredSessions_retains Date_parse_iso JS.asciiToLowerCase
                  eq_refl (fun s _ => eq_refl)
                  (Sample.filtering [Sample.bob; Sample.alice]
                                    "JOHN" "2024-03-01" "")
                  Sample.alice eq_refl eq_refl eq_refl)).
Defined.

(** A session whose timestamp is later than the instant of the end date
    is dropped, whatever else holds. *)
Lemma later_than_end_bound_dropped
    (Date_parse : string -> JS.number) (toLowerCase : string -> string)
    (r : Render) (s : ChatSession.t) (t e : Z) :
  sessionDate Date_parse s = Some t ->
  Date_parse (endDate r) = Some e ->
  endDate r <> "" ->
  e < t ->
  ~ In s (filteredSessions Date_parse toLowerCase r).
Proof.
  intros Ht He Hset Hlt Hin. unfold filteredSessions in Hin.
  apply filter_In in Hin as [_ Hr]. unfold retained in Hr.
  apply andb_true_iff in Hr as [_ Hd]. unfold isWithinDateRange in Hd.
  apply andb_true_iff in Hd as [_ Hd].
  rewrite Ht in Hd. simpl in Hd. rewrite He in Hd.
  apply orb_true_iff in Hd as [Hd|Hd].
  - apply negb_true_iff, truthy_false in Hd. contradiction.
  - unfold JS.le, JS.ge in Hd. apply Z.leb_le in Hd. lia.
Qed.

(** C3, evaluated. The end date bounds at its first instant, midnight
    UTC, so the end day itself is left out.  The most recent message of
    session 7 is of 2024-03-10, 09:15 UTC.  With 2024-03-10 as start
    date the session is retained, the whole start day being in range;
    with 2024-03-10 as end date it is dropped, although its timestamp is
    of that day; it comes back once the end date is the day after. *)
Theorem filteredSessions_excludes_the_end_day :
  Spec.mostRecent Date_parse_iso Sample.alice
  = Date_parse_iso "2024-03-10T09:15:00Z" /\
  filteredSessions Date_parse_iso JS.asciiToLowerCase
    (Sample.filtering [Sample.alice] "" "2024-03-10" "") = [Sample.alice] /\
  filteredSessions Date_parse_iso JS.asciiToLowerCase
    (Sample.filtering [Sample.alice] "" "" "2024-03-10") = [] /\
  filteredSessions Date_parse_iso JS.asciiToLowerCase
    (Sample.filtering [Sample.alice] "" "2024-03-10" "2024-03-10") = [] /\
  filteredSessions Date_parse_iso JS.asciiToLowerCase
    (Sample.filtering [Sample.alice] "" "2024-03-10" "2024-03-11")
  = [Sample.alice].
Proof. repeat split; reflexivity. Qed.

(* ------------------------------------------------------------------ *)
(** * The pagination engine *)

Ltac run_fetch :=
  unfold fetchSessions, fetchSessions_resume, fetchSessions_try,
    fetchSessions_start, try_catch_finally, bind, ret, throw,
    setLoading, setError, setSnackbarVisible, setTotalPages, setSessions,
    setPage, update, send;
  cbn.

(** An invocation of [fetchSessions] never completes abruptly: the
    [catch] clause handles whatever the [try] block throws. *)
Lemma fetchSessions_never_throws (Date_parse : string -> JS.number)
    (r : Render) (res : FetchResult) (w : World) :
  fst (fetchSessions Date_parse r res w) = JS.Normal tt.
Proof.
  run_fetch. destruct (fetchSessions_guard r); cbn; [reflexivity|].
  destruct res as [e|status [e|d]]; cbn; try reflexivity;
    destruct (ok status); cbn; try reflexivity.
  destruct (chat_sessions d); reflexivity.
Qed.

(** C1. A fetch that fails (transport error, status outside 200-299,
    unparsable body, body without sessions) leaves the loaded session
    list and the page cursor as they were, records the message of the
    error, makes the notification visible and clears the loading flag;
    no invocation of [fetchSessions], failing or not, throws. *)
Theorem fetchSessions_failure
    (Date_parse : string -> JS.number)
    (r : Render) (w : World) (res : FetchResult) (msg : string)
    (Hguard : fetchSessions_guard r = false)
    (Hfail : Failure res msg) :
  let w' := snd (fetchSessions Date_parse r res w) in
  sessions (store w') = sessions (store w) /\
  page (store w') = page (store w) /\
  error (store w') = Some msg /\
  isSnackbarVisible (store w') = true /\
  loading (store w') = false /\
  network w' = network w ++ [fetchRequest r] /\
  forall r0 res0 w0, fst (fetchSessions Date_parse r0 res0 w0) = JS.Normal tt.
Proof.
  cbv zeta. repeat split; try apply fetchSessions_never_throws;
    run_fetch; rewrite Hguard; cbn;
    destruct Hfail as [e|status body Hok|status e Hok|status d Hok Hnone];
    cbn; try rewrite Hok; cbn; try rewrite Hnone; reflexivity.
Qed.

Lemma fetchSessions_failure_witness :
  fetchSessions_guard (Sample.loaded [Sample.alice]) = false /\
  Failure Sample.http500 "Failed to fetch sessions. Please try again." /\
  let w' := snd (fetchSessions Date_parse_iso (Sample.loaded [Sample.alice])
                   Sample.http500
                   (Sample.world (Sample.loaded [Sample.alice]))) in
  sessions (store w') = [Sample.alice] /\
  page (store w') = 2 /\
  error (store w') = Some "Failed to fetch sessions. Please try again." /\
  isSnackbarVisible (store w') = true /\
  loading (store w') = false /\
  network w' = [] ++ [fetchRequest (Sample.loaded [Sample.alice])] /\
  forall r0 res0 w0, fst (fetchSessions Date_parse_iso r0 res0 w0) = JS.Normal tt.
Proof.
  split; [reflexivity|]. split; [now constructor|].
  exact (fetchSessions_failure Date_parse_iso (Sample.loaded [Sample.alice])
           (Sample.world (Sample.loaded [Sample.alice])) Sample.http500
           "Failed to fetch sessions. Please try again."
           eq_refl (bad_status 500 _ eq_refl)).
Defined.

(** What a successful fetch leaves in the store. *)
Lemma fetchSessions_success_store
    (Date_parse : string -> JS.number)
    (r : Render) (w : World) (res : FetchResult) (d : Data)
    (fetched : list ChatSession.t) :
  fetchSessions_guard r = false ->
  Success res d fetched ->
  let w' := snd (fetchSessions Date_parse r res w) in
  sessions (store w') =
    JS.sort (compareSessions Date_parse)
      (sessions (store w) ++ JS.sort (compareSessions Date_parse) fetched) /\
  page (store w') = page (store w) + 1 /\
  totalPages (store w') = orNull (total_pages d) /\
  loading (store w') = false /\
  error (store w') = error (store w) /\
  isSnackbarVisible (store w') = isSnackbarVisible (store w) /\
  network w' = network w ++ [fetchRequest r].
Proof.
  intros Hguard [status d' fetched' Hok Hsome]. cbv zeta.
  run_fetch. rewrite Hguard. cbn. rewrite Hok. cbn. rewrite Hsome. cbn.
  repeat split; reflexivity.
Qed.

Lemma merge_permutation (Date_parse : string -> JS.number)
    (prev fetched : list ChatSession.t) :
  Permutation (prev ++ fetched)
    (JS.sort (compareSessions Date_parse)
       (prev ++ JS.sort (compareSessions Date_parse) fetched)).
Proof.
  eapply perm_trans; [|apply sort_permutation].
  apply Permutation_app_head, sort_permutation.
Qed.

(** C4. After a successful fetch, the sessions having the backend's
    shape (valid timestamps, messages most recent first), the loaded list
    is the previous list and the fetched page merged, in descending order
    of the most recent message timestamp (the epoch for a session
    without messages), whatever the previous list and the page were; the
    page cursor has advanced by one. *)
Theorem fetchSessions_success_sorted
    (Date_parse : string -> JS.number) (Date_parse_empty : Date_parse "" = None)
    (r : Render) (w : World) (res : FetchResult) (d : Data)
    (fetched : list ChatSession.t)
    (Hguard : fetchSessions_guard r = false)
    (Hres : Success res d fetched)
    (Hshape : Forall (fun s => Spec.recentFirst Date_parse s = true)
                     (sessions (store w) ++ fetched)) :
  let w' := snd (fetchSessions Date_parse r res w) in
  Spec.newestFirst Date_parse (sessions (store w')) /\
  Permutation (sessions (store w) ++ fetched) (sessions (store w')) /\
  page (store w') = page (store w) + 1.
Proof.
  destruct (fetchSessions_success_store Date_parse r w res d fetched Hguard Hres)
    as [Hs [Hp _]].
  cbv zeta. rewrite Hs, Hp. split; [|split; [apply merge_permutation|reflexivity]].
  apply sort_newestFirst; [exact Date_parse_empty|].
  rewrite Forall_forall in *. intros s Hin. apply Hshape.
  apply in_app_iff in Hin. apply in_app_iff.
  destruct Hin as [Hin|Hin]; [now left|right].
  now apply sort_In in Hin.
Qed.

Lemma fetchSessions_success_sorted_witness :
  Date_parse_iso "" = None /\
  fetchSessions_guard (Sample.loaded [Sample.bob]) = false /\
  Success (Sample.page_of (Some 3) [Sample.idle; Sample.carol; Sample.alice])
          {| total_pages := Some 3;
             chat_sessions := Some [Sample.idle; Sample.carol; Sample.alice] |}
          [Sample.idle; Sample.carol; Sample.alice] /\
  Forall (fun s => Spec.recentFirst Date_parse_iso s = true)
         ([Sample.bob] ++ [Sample.idle; Sample.carol; Sample.alice]) /\
  let w' := snd (fetchSessions Date_parse_iso (Sample.loaded [Sample.bob])
                   (Sample.page_of (Some 3)
                      [Sample.idle; Sample.carol; Sample.alice])
                   (Sample.world (Sample.loaded [Sample.bob]))) in
  Spec.newestFirst Date_parse_iso (sessions (store w')) /\
  Permutation ([Sample.bob] ++ [Sample.idle; Sample.carol; Sample.alice])
              (sessions (store w')) /\
  page (store w') = 2 + 1.
Proof.
  assert (Hshape : Forall (fun s => Spec.recentFirst Date_parse_iso s = true)
                     ([Sample.bob] ++ [Sample.idle; Sample.carol; Sample.alice])).
  { repeat constructor. }
  assert (Hres : Success
            (Sample.page_of (Some 3) [Sample.idle; Sample.carol; Sample.alice])
            {| total_pages := Some 3;
               chat_sessions := Some [Sample.idle; Sample.carol; Sample.alice] |}
            [Sample.idle; Sample.carol; Sample.alice]).
  { now constructor. }
  split; [reflexivity|]. split; [reflexivity|]. split; [exact Hres|].
  split; [exact Hshape|].
  exact (fetchSessions_success_sorted Date_parse_iso eq_refl
           (Sample.loaded [Sample.bob]) (Sample.world (Sample.loaded [Sample.bob]))
           _ _ _ eq_refl Hres Hshape).
Defined.

(** The three sessions end up in the same order whichever page brought
    which. *)
Example merge_order_independent_of_arrival :
  let load res st := store (handle Date_parse_iso (Load res) (Sample.world st)) in
  sessions (load (Sample.page_of (Some 3) [Sample.carol; Sample.alice])
                 (Sample.loaded [Sample.bob]))
  = [Sample.alice; Sample.bob; Sample.carol] /\
  sessions (load (Sample.page_of (Some 3) [Sample.bob])
                 (Sample.loaded [Sample.alice; Sample.carol]))
  = [Sample.alice; Sample.bob; Sample.carol] /\
  sessions (load (Sample.page_of (Some 3) [Sample.idle; Sample.alice])
                 (Sample.loaded [Sample.carol; Sample.bob]))
  = [Sample.alice; Sample.bob; Sample.carol; Sample.idle].
Proof. repeat split; reflexivity. Qed.

Lemma occurrences_app (i : Z) (l l' : list ChatSession.t) :
  occurrences i (l ++ l') = (occurrences i l + occurrences i l')%nat.
Proof. unfold occurrences. now rewrite filter_app, length_app. Qed.

Lemma occurrences_permutation (i : Z) (l l' : list ChatSession.t) :
  Permutation l l' -> occurrences i l = occurrences i l'.
Proof.
  unfold occurrences.
  induction 1 as [|a l l' _ IH|a b l|l l' l'' _ IH1 _ IH2]; simpl.
  - reflexivity.
  - destruct (ChatSession.id a =? i); simpl; now rewrite IH.
  - destruct (ChatSession.id a =? i), (ChatSession.id b =? i); reflexivity.
  - now rewrite IH1.
Qed.

Lemma occurrences_In (s : ChatSession.t) (l : list ChatSession.t) :
  In s l -> (1 <= occurrences (ChatSession.id s) l)%nat.
Proof.
  unfold occurrences. induction l as [|a l IH]; simpl; [tauto|].
  intros [->|H].
  - rewrite Z.eqb_refl. simpl. lia.
  - specialize (IH H). destruct (ChatSession.id a =? ChatSession.id s); simpl; lia.
Qed.

(** C9. The merge does not de-duplicate by id: a successful fetch
    returning [k] sessions makes the loaded list [k] entries longer, every
    id occurs as often as before plus as often as in the page, and a
    fetched session whose id was already loaded is there at least twice
    afterwards. *)
Theorem fetchSessions_success_keeps_duplicates
    (Date_parse : string -> JS.number)
    (r : Render) (w : World) (res : FetchResult) (d : Data)
    (fetched : list ChatSession.t)
    (Hguard : fetchSessions_guard r = false)
    (Hres : Success res d fetched) :
  let prev := sessions (store w) in
  let merged := sessions (store (snd (fetchSessions Date_parse r res w))) in
  List.length merged = (List.length prev + List.length fetched)%nat /\
  (forall i, occurrences i merged
             = (occurrences i prev + occurrences i fetched)%nat) /\
  (forall s s', In s fetched -> In s' prev ->
                ChatSession.id s' = ChatSession.id s ->
                (2 <= occurrences (ChatSession.id s) merged)%nat).
Proof.
  destruct (fetchSessions_success_store Date_parse r w res d fetched Hguard Hres)
    as [Hs _].
  cbv zeta. rewrite Hs.
  pose proof (merge_permutation Date_parse (sessions (store w)) fetched) as HP.
  assert (Hocc : forall i,
             occurrences i (JS.sort (compareSessions Date_parse)
               (sessions (store w) ++ JS.sort (compareSessions Date_parse) fetched))
             = (occurrences i (sessions (store w)) + occurrences i fetched)%nat).
  { intros i. rewrite <- (occurrences_permutation i _ _ HP).
    apply occurrences_app. }
  split; [|split].
  - rewrite <- (Permutation_length HP). apply length_app.
  - exact Hocc.
  - intros s s' Hin Hin' Hid. rewrite Hocc.
    pose proof (occurrences_In s fetched Hin).
    pose proof (occurrences_In s' (sessions (store w)) Hin') as H'.
    rewrite Hid in H'. lia.
Qed.

Lemma fetchSessions_success_keeps_duplicates_witness :
  fetchSessions_guard (Sample.loaded [Sample.alice; Sample.bob]) = false /\
  Success (Sample.page_of (Some 3) [Sample.carol; Sample.alice_again])
          {| total_pages := Some 3;
             chat_sessions := Some [Sample.carol; Sample.alice_again] |}
          [Sample.carol; Sample.alice_again] /\
  let prev := [Sample.alice; Sample.bob] in
  let merged :=
    sessions (store (snd (fetchSessions Date_parse_iso
      (Sample.loaded [Sample.alice; Sample.bob])
      (Sample.page_of (Some 3) [Sample.carol; Sample.alice_again])
      (Sample.world (Sample.loaded [Sample.alice; Sample.bob]))))) in
  List.length merged = (List.length prev + 2)%nat /\
  (forall i, occurrences i merged
             = (occurrences i prev
                + occurrences i [Sample.carol; Sample.alice_again])%nat) /\
  (forall s s', In s [Sample.carol; Sample.alice_again] -> In s' prev ->
                ChatSession.id s' = ChatSession.id s ->
                (2 <= occurrences (ChatSession.id s) merged)%nat).
Proof.
  assert (Hres : Success
            (Sample.page_of (Some 3) [Sample.carol; Sample.alice_again])
            {| total_pages := Some 3;
               chat_sessions := Some [Sample.carol; Sample.alice_again] |}
            [Sample.carol; Sample.alice_again]).
  { now constructor. }
  split; [reflexivity|]. split; [exact Hres|].
  exact (fetchSessions_success_keeps_duplicates Date_parse_iso
           (Sample.loaded [Sample.alice; Sample.bob])
           (Sample.world (Sample.loaded [Sample.alice; Sample.bob]))
           _ _ _ eq_refl Hres).
Defined.

(** Session 7 is in the list twice once an overlapping page has come. *)
Example overlapping_page_duplicates :
  sessions (store (handle Date_parse_iso
    (Load (Sample.page_of (Some 3) [Sample.carol; Sample.alice_again]))
    (Sample.world (Sample.loaded [Sample.alice; Sample.bob]))))
  = [Sample.alice_again; Sample.alice; Sample.bob; Sample.carol].
Proof. reflexivity. Qed.

(** ** The total page count *)



(** ** The guard *)

Lemma fetchSessions_start_blocked (r : Render) (w : World) :
  fetchSessions_guard r = true ->
  fetchSessions_start r w = (JS.Normal None, w).
Proof. intros H. unfold fetchSessions_start. now rewrite H. Qed.

Lemma fetchSessions_blocked (Date_parse : string -> JS.number)
    (r : Render) (res : FetchResult) (w : World) :
  fetchSessions_guard r = true ->
  fetchSessions Date_parse r res w = (JS.Normal tt, w).
Proof.
  intros H. unfold fetchSessions, bind.
  now rewrite (fetchSessions_start_blocked r w H).
Qed.

(** A render that has seen [loading = true] yields a function that does
    nothing. *)
Lemma fetchSessions_start_while_loading (r : Render) (w : World) :
  loading r = true -> fetchSessions_start r w = (JS.Normal None, w).
Proof.
  intros H. apply fetchSessions_start_blocked.
  unfold fetchSessions_guard. now rewrite H.
Qed.

(** Invoked again through the next render, the function is stopped: one
    request in all. *)
Lemma fetchSessions_start_after_rerender (r : Render) (w : World) :
  fetchSessions_guard r = false ->
  let w1 := snd (fetchSessions_start r w) in
  fetchSessions_start (store w1) w1 = (JS.Normal None, w1) /\
  network w1 = network w ++ [fetchRequest r].
Proof.
  intros H. cbv zeta. split.
  - apply fetchSessions_start_while_loading.
    unfold fetchSessions_start. rewrite H. reflexivity.
  - unfold fetchSessions_start. rewrite H. reflexivity.
Qed.

(** Invoked again before the next render, the same function passes its
    guard a second time: [loading] is the constant of its render. *)
Lemma fetchSessions_start_same_render (r : Render) (w : World) :
  fetchSessions_guard r = false ->
  let w1 := snd (fetchSessions_start r w) in
  let w2 := snd (fetchSessions_start r w1) in
  loading (store w1) = true /\
  network w2 = network w ++ [fetchRequest r; fetchRequest r].
Proof.
  intros H. cbv zeta. unfold fetchSessions_start. rewrite H. cbn.
  split; [reflexivity|]. now rewrite <- app_assoc.
Qed.

(** C2, evaluated. The [fetchSessions] of the first render invoked twice
    before the component renders again: the second invocation happens
    while the store's loading flag is already true, and still a second
    request for page 1 is sent; when both settle the page is merged twice
    and the cursor has moved from 1 to 3. *)
Theorem fetchSessions_twice_before_rerender :
  let r : Render := initialState in
  let page1 := Sample.page_of (Some 3) [Sample.alice; Sample.bob] in
  let w1 := snd (fetchSessions_start r initialWorld) in
  let w2 := snd (fetchSessions_start r w1) in
  let w3 := snd (fetchSessions_resume Date_parse_iso page1 w2) in
  let w4 := snd (fetchSessions_resume Date_parse_iso page1 w3) in
  loading (store w1) = true /\
  network w1 = [fetchRequest r] /\
  network w2 = [fetchRequest r; fetchRequest r] /\
  req_page (fetchRequest r) = 1 /\
  sessions (store w4) = [Sample.alice; Sample.alice; Sample.bob; Sample.bob] /\
  page (store w4) = 3.
Proof. repeat split; reflexivity. Qed.

(** ** The end of the pages *)

Lemma handle_past_the_end (Date_parse : string -> JS.number)
    (e : Event) (w : World) (t : Z) :
  totalPages (store w) = Some t -> t < page (store w) ->
  let w' := handle Date_parse e w in
  network w' = network w /\
  page (store w') = page (store w) /\
  totalPages (store w') = totalPages (store w) /\
  sessions (store w') = sessions (store w) /\
  loading (store w') = loading (store w) /\
  error (store w') = error (store w).
Proof.
  intros Ht Hp. cbv zeta.
  assert (Hg : fetchSessions_guard (store w) = true).
  { unfold fetchSessions_guard. rewrite Ht.
    apply orb_true_iff. right. now apply Z.ltb_lt. }
  destruct e; unfold handle.
  - rewrite (fetchSessions_blocked Date_parse _ res w Hg). cbn. tauto.
  - unfold handleSessionClick.
    destruct (find _ (sessions (store w))); cbn; tauto.
  - cbn; tauto.
  - cbn; tauto.
  - cbn; tauto.
  - cbn; tauto.
  - cbn; tauto.
  - cbn; tauto.
Qed.

Lemma run_past_the_end (Date_parse : string -> JS.number)
    (es : list Event) (w : World) (t : Z) :
  totalPages (store w) = Some t -> t < page (store w) ->
  let w' := run Date_parse es w in
  network w' = network w /\
  page (store w') = page (store w) /\
  totalPages (store w') = totalPages (store w) /\
  sessions (store w') = sessions (store w) /\
  loading (store w') = loading (store w) /\
  error (store w') = error (store w).
Proof.
  revert w. induction es as [|e es IH]; intros w Ht Hp; cbv zeta.
  - cbn. tauto.
  - unfold run. simpl. fold (run Date_parse es (handle Date_parse e w)).
    destruct (handle_past_the_end Date_parse e w t Ht Hp)
      as [Hn [Hpg [Htp [Hs [Hl He]]]]].
    assert (Ht' : totalPages (store (handle Date_parse e w)) = Some t)
      by congruence.
    assert (Hp' : t < page (store (handle Date_parse e w)))
      by (rewrite Hpg; exact Hp).
    specialize (IH _ Ht' Hp'). cbv zeta in IH.
    rewrite <- Hn, <- Hpg, <- Htp, <- Hs, <- Hl, <- He. exact IH.
Qed.

(** C5. Once the page cursor exceeds the known total page count, the
    [fetchSessions] of that render returns at the guard whenever it is
    invoked: it completes normally (no error), sends no request and
    changes no state; and whatever events follow (invocations of
    [fetchSessions], clicks, typing, date picks), no request is ever
    sent and cursor, total, loaded list, loading flag and error stay as
    they are. *)
Theorem fetchSessions_past_the_end
    (Date_parse : string -> JS.number) (r : Render) (t : Z)
    (Htotal : totalPages r = Some t)
    (Hpast : t < page r) :
  (forall res w, fetchSessions Date_parse r res w = (JS.Normal tt, w)) /\
  (forall w, fetchSessions_start r w = (JS.Normal None, w)) /\
  forall es sent,
    let w := {| store := r; network := sent |} in
    let w' := run Date_parse es w in
    network w' = sent /\
    page (store w') = page r /\
    totalPages (store w') = totalPages r /\
    sessions (store w') = sessions r /\
    loading (store w') = loading r /\
    error (store w') = error r.
Proof.
  assert (Hg : fetchSessions_guard r = true).
  { unfold fetchSessions_guard. rewrite Htotal.
    apply orb_true_iff. right. now apply Z.ltb_lt. }
  split; [|split].
  - intros res w. now apply fetchSessions_blocked.
  - intros w. now apply fetchSessions_start_blocked.
  - intros es sent.
    exact (run_past_the_end Date_parse es {| store := r; network := sent |} t
             Htotal Hpast).
Qed.

Lemma fetchSessions_past_the_end_witness :
  totalPages Sample.exhausted = Some 1 /\
  1 < page Sample.exhausted /\
  (forall res w,
     fetchSessions Date_parse_iso Sample.exhausted res w = (JS.Normal tt, w)) /\
  (forall w, fetchSessions_start Sample.exhausted w = (JS.Normal None, w)).
Proof.
  split; [reflexivity|]. split; [reflexivity|].
  pose proof (fetchSessions_past_the_end Date_parse_iso
                Sample.exhausted 1 eq_refl eq_refl) as H.
  split; [exact (proj1 H)|exact (proj1 (proj2 H))].
Defined.

(** Loads, clicks and typing after the last page: nothing is sent. *)
Example exhausted_stays_quiet :
  let w := run Date_parse_iso
             [Load (Sample.page_of (Some 9) [Sample.carol]); Click 7;
              TypeQuery "bo"; Load Sample.http500; ToggleSearch;
              Load (Sample.page_of None [])]
             (Sample.world Sample.exhausted) in
  network w = [] /\ page (store w) = 2 /\ totalPages (store w) = Some 1 /\
  sessions (store w) = [Sample.alice; Sample.bob] /\
  error (store w) = None /\
  selectedSession (store w) = Some 7.
Proof. repeat split; reflexivity. Qed.

(* ------------------------------------------------------------------ *)
(** * Selection *)

Lemma find_first (i : Z) (l1 l2 : list ChatSession.t) (s : ChatSession.t) :
  ChatSession.id s = i ->
  (forall x, In x l1 -> ChatSession.id x <> i) ->
  find (fun session => ChatSession.id session =? i) (l1 ++ s :: l2) = Some s.
Proof.
  intros Hs. induction l1 as [|a l1 IH]; intros Hl1; simpl.
  - now rewrite (proj2 (Z.eqb_eq _ _) Hs).
  - destruct (Z.eqb_spec (ChatSession.id a) i) as [E|_].
    + exfalso. apply (Hl1 a); [now left|exact E].
    + apply IH. intros x Hx. apply Hl1. now right.
Qed.

Lemma find_absent (i : Z) (l : list ChatSession.t) :
  (forall x, In x l -> ChatSession.id x <> i) ->
  find (fun session => ChatSession.id session =? i) l = None.
Proof.
  induction l as [|a l IH]; intros Hl; simpl; [reflexivity|].
  destruct (Z.eqb_spec (ChatSession.id a) i) as [E|_].
  - exfalso. apply (Hl a); [now left|exact E].
  - apply IH. intros x Hx. apply Hl. now right.
Qed.

Lemma handleSessionClick_found (r : Render) (w : World) (s : ChatSession.t) :
  find (fun session => ChatSession.id session =? ChatSession.id s)
       (sessions r) = Some s ->
  handleSessionClick r (ChatSession.id s) w
  = (JS.Normal tt, {| store := selected s (store w); network := network w |}).
Proof. intros H. unfold handleSessionClick. now rewrite H. Qed.

(** C7. Selecting the id of a loaded session, [s] being the session of
    the list that carries it (the first one, should the id occur more
    than once), makes the current message view exactly the messages
    array of [s], same entries in the same order, records the selection
    and sends no request; nothing else changes. *)
Theorem handleSessionClick_selects
    (r : Render) (w : World) (l1 l2 : list ChatSession.t) (s : ChatSession.t)
    (Hloaded : sessions r = l1 ++ s :: l2)
    (Hfirst : forall x, In x l1 -> ChatSession.id x <> ChatSession.id s) :
  let w' := snd (handleSessionClick r (ChatSession.id s) w) in
  messages (store w') = ChatSession.messages s /\
  selectedSession (store w') = Some (ChatSession.id s) /\
  network w' = network w /\
  store w' = selected s (store w) /\
  fst (handleSessionClick r (ChatSession.id s) w) = JS.Normal tt.
Proof.
  cbv zeta. rewrite handleSessionClick_found.
  - repeat split; reflexivity.
  - rewrite Hloaded. now apply find_first.
Qed.

Lemma handleSessionClick_selects_witness :
  sessions (Sample.loaded [Sample.bob; Sample.alice; Sample.carol])
  = [Sample.bob] ++ Sample.alice :: [Sample.carol] /\
  (forall x, In x [Sample.bob] -> ChatSession.id x <> 7) /\
  let w' := snd (handleSessionClick
                   (Sample.loaded [Sample.bob; Sample.alice; Sample.carol]) 7
                   (Sample.world
                      (Sample.loaded [Sample.bob; Sample.alice; Sample.carol]))) in
  messages (store w') = ChatSession.messages Sample.alice /\
  selectedSession (store w') = Some 7 /\
  network w' = [] /\
  store w' = selected Sample.alice
               (Sample.loaded [Sample.bob; Sample.alice; Sample.carol]) /\
  fst (handleSessionClick
         (Sample.loaded [Sample.bob; Sample.alice; Sample.carol]) 7
         (Sample.world (Sample.loaded [Sample.bob; Sample.alice; Sample.carol])))
  = JS.Normal tt.
Proof.
  assert (Hfirst : forall x, In x [Sample.bob] ->
                             ChatSession.id x <> ChatSession.id Sample.alice).
  { intros x [<-|[]]. discriminate. }
  split; [reflexivity|]. split; [exact Hfirst|].
  exact (handleSessionClick_selects
           (Sample.loaded [Sample.bob; Sample.alice; Sample.carol])
           (Sample.world (Sample.loaded [Sample.bob; Sample.alice; Sample.carol]))
           [Sample.bob] [Sample.carol] Sample.alice eq_refl Hfirst).
Defined.

(** Session 7 has three messages; the view shows these three. *)
Example select_session_7 :
  let w' := handle Date_parse_iso (Click 7)
              (Sample.world (Sample.loaded [Sample.bob; Sample.alice])) in
  List.length (messages (store w')) = 3%nat /\
  map Message.id (messages (store w')) = [3; 2; 1] /\
  network w' = [].
Proof. repeat split; reflexivity. Qed.

(** With ids that identify the loaded sessions, any session of the list
    can stand for [s]. *)
Lemma handleSessionClick_unique_id (r : Render) (w : World) (s : ChatSession.t) :
  In s (sessions r) ->
  (forall x, In x (sessions r) -> ChatSession.id x = ChatSession.id s -> x = s) ->
  handleSessionClick r (ChatSession.id s) w
  = (JS.Normal tt, {| store := selected s (store w); network := network w |}).
Proof.
  intros Hin Huniq. apply handleSessionClick_found.
  induction (sessions r) as [|a l IH]; simpl; [destruct Hin|].
  destruct (Z.eqb_spec (ChatSession.id a) (ChatSession.id s)) as [E|N].
  - f_equal. apply Huniq; [now left|exact E].
  - destruct Hin as [->|Hin]; [congruence|].
    apply IH; [exact Hin|]. intros x Hx. apply Huniq. now right.
Qed.

(** C10. For an id that no loaded session carries, [handleSessionClick]
    changes nothing: the store, with the selected session and the
    current message view, and the network log are as before. *)
Theorem handleSessionClick_unknown_id
    (r : Render) (w : World) (sessionId : Z)
    (Habsent : forall s, In s (sessions r) -> ChatSession.id s <> sessionId) :
  handleSessionClick r sessionId w = (JS.Normal tt, w).
Proof.
  unfold handleSessionClick. now rewrite (find_absent sessionId _ Habsent).
Qed.

Lemma handleSessionClick_unknown_id_witness :
  let st := selected Sample.bob (Sample.loaded [Sample.bob; Sample.carol]) in
  (forall s, In s (sessions st) -> ChatSession.id s <> 7) /\
  handleSessionClick st 7 (Sample.world st) = (JS.Normal tt, Sample.world st).
Proof.
  cbv zeta.
  assert (Habsent : forall s,
             In s (sessions (selected Sample.bob
                               (Sample.loaded [Sample.bob; Sample.carol]))) ->
             ChatSession.id s <> 7).
  { intros s [<-|[<-|[]]]; discriminate. }
  split; [exact Habsent|].
  exact (handleSessionClick_unknown_id _ _ 7 Habsent).
Defined.

(* ------------------------------------------------------------------ *)
(** * The notification and its timer *)

Section SnackbarFacts.
Import Snackbar.
Local Open Scope N_scope.

Lemma runCleanup_wellTimed (i : Instance) (k : Hook) :
  wellTimed i -> hook i = Some k ->
  timers (runCleanup (cleanup k) (host i)) = [] /\
  now (runCleanup (cleanup k) (host i)) = now (host i) /\
  fresh (runCleanup (cleanup k) (host i)) = fresh (host i) /\
  called (runCleanup (cleanup k) (host i)) = called (host i).
Proof.
  intros [Hnone|[k' [t [d [Hk [Hc Ht]]]]]] Hhook.
  - destruct (cleanup k); simpl; [|tauto].
    rewrite Hnone. simpl. tauto.
  - rewrite Hhook in Hk. injection Hk as <-. rewrite Hc. simpl.
    rewrite Ht. simpl. rewrite Nat.eqb_refl. simpl. tauto.
Qed.

Lemma wellTimed_no_hook (i : Instance) :
  wellTimed i -> hook i = None -> timers (host i) = [].
Proof.
  intros [Hnone|[k [t [d [Hk _]]]]] Hhook; [exact Hnone|congruence].
Qed.

(** The host on which a run of the effect starts: the previous cleanup
    has cleared the pending timer. *)
Lemma commit_rerun (p : Props) (i : Instance) :
  wellTimed i -> reruns p (hook i) = true ->
  let i' := step (Rendered p) i in
  timers (host i') = (if isVisible p then [scheduled p (host i)] else []) /\
  called (host i') = called (host i) /\
  now (host i') = now (host i) /\
  wellTimed i'.
Proof.
  intros Hw Hr. cbv zeta. unfold step, commit.
  destruct (hook i) as [k|] eqn:Hk.
  - rewrite Hr.
    destruct (runCleanup_wellTimed i k Hw Hk) as [Ht [Hn [Hf Hc]]].
    unfold effect, setTimeout, scheduled.
    destruct (isVisible p); simpl.
    + rewrite Ht, Hn, Hf, Hc. simpl. repeat split.
      right. simpl. eexists _, _, _. repeat split.
    + rewrite Ht, Hn, Hc. repeat split. now left.
  - pose proof (wellTimed_no_hook i Hw Hk) as Ht.
    unfold effect, setTimeout, scheduled.
    destruct (isVisible p); simpl.
    + rewrite Ht. simpl. repeat split.
      right. simpl. eexists _, _, _. repeat split.
    + rewrite Ht. repeat split. now left.
Qed.

Lemma commit_same_deps (p : Props) (i : Instance) :
  reruns p (hook i) = false ->
  step (Rendered p) i = i.
Proof.
  intros Hr. unfold step, commit. destruct i as [[k|] h]; simpl in *.
  - now rewrite Hr.
  - discriminate.
Qed.

Lemma wellTimed_step (s : Step) (i : Instance) :
  wellTimed i -> wellTimed (step s i).
Proof.
  intros Hw. destruct s as [p|dt|].
  - destruct (reruns p (hook i)) eqn:Hr.
    + now apply commit_rerun.
    + now rewrite commit_same_deps.
  - destruct Hw as [Hnone|[k [t [d [Hk [Hc Ht]]]]]]; simpl.
    + left. simpl. now rewrite Hnone.
    + unfold wellTimed. simpl. rewrite Ht. simpl.
      destruct (now (host i) + dt <? d); [|now left].
      right. now exists k, t, d.
  - simpl. destruct (hook i) as [k|] eqn:Hk; [|exact Hw].
    left. simpl. now apply runCleanup_wellTimed.
Qed.

Lemma wellTimed_steps (l : list Step) (i : Instance) :
  wellTimed i -> wellTimed (steps l i).
Proof.
  revert i. induction l as [|s l IH]; intros i Hw; simpl; [exact Hw|].
  apply IH. now apply wellTimed_step.
Qed.

Lemma wellTimed_start : wellTimed start.
Proof. now left. Qed.

(** Time passing over a host with no timer, or with one timer. *)
Lemma elapse_idle (dts : list N) (i : Instance) :
  timers (host i) = [] ->
  called (host (steps (map Elapsed dts) i)) = called (host i).
Proof.
  revert i. induction dts as [|dt dts IH]; intros i Ht; simpl; [reflexivity|].
  rewrite IH; simpl; rewrite Ht; simpl; [apply app_nil_r|reflexivity].
Qed.

Lemma elapse_one_timer (dts : list N) (i : Instance) (t : Timer) :
  timers (host i) = [t] ->
  now (host i) < due t ->
  called (host (steps (map Elapsed dts) i)) =
  called (host i)
  ++ (if due t <=? now (host i) + total dts then [callback t] else []).
Proof.
  revert i. induction dts as [|dt dts IH]; intros i Ht Hlt; simpl.
  - rewrite N.add_0_r. rewrite (proj2 (N.leb_gt _ _) Hlt).
    now rewrite app_nil_r.
  - destruct (N.leb_spec (due t) (now (host i) + dt)) as [Hdue|Hnot].
    + rewrite elapse_idle.
      * simpl. rewrite Ht. simpl.
        rewrite (proj2 (N.leb_le _ _) Hdue). simpl.
        destruct (N.leb_spec (due t) (now (host i) + (dt + total dts)));
          [reflexivity|lia].
      * simpl. rewrite Ht. simpl.
        now rewrite (proj2 (N.ltb_ge _ _) Hdue).
    + rewrite IH.
      * simpl. rewrite Ht. simpl.
        rewrite (proj2 (N.leb_gt _ _) Hnot). simpl.
        rewrite app_nil_r. now rewrite N.add_assoc.
      * simpl. rewrite Ht. simpl.
        now rewrite (proj2 (N.ltb_lt _ _) Hnot).
      * simpl. exact Hnot.
Qed.

End SnackbarFacts.

Section SnackbarClaims.
Import Snackbar.
Local Open Scope N_scope.

Lemma deps_after_commit (p : Props) (i : Instance) :
  exists k, hook (step (Rendered p) i) = Some k /\ snd (deps k) = onClose p.
Proof.
  unfold step, commit. destruct (hook i) as [k0|].
  - destruct (reruns p (Some k0)) eqn:Hr.
    + destruct (effect p (runCleanup (cleanup k0) (host i))) as [c h'].
      simpl. now eexists.
    + simpl. exists k0. split; [reflexivity|].
      simpl in Hr. apply negb_false_iff in Hr. unfold sameDeps in Hr.
      apply andb_true_iff in Hr as [_ Hr]. now apply Nat.eqb_eq in Hr.
  - destruct (effect p (host i)) as [c h']. simpl. now eexists.
Qed.

(** Two deviations from "auto-hide 3000 ms after becoming visible,
    restarted by every change of message or visibility".  For the
    component: the message changes at 2000 ms while [isVisible] and
    [onClose] stay the same; the pending timer is kept, no new one is
    scheduled, and the notification closes 1000 ms after the change.
    For the page: the user types into the search box at 2000 ms, the
    page renders again with the same message and visibility but a new
    [onClose]; the timer is replaced by one due at 5000 ms, and at
    3000 ms nothing has been closed. *)
Lemma snackbar_timer_follows_onClose_not_message :
  let p1 := {| message := "Failed to fetch sessions. Please try again.";
               isVisible := true; onClose := 0 |} in
  let p2 := {| message := "Failed to fetch";
               isVisible := true; onClose := 0 |} in
  let i1 := steps [Rendered p1; Elapsed 2000] start in
  let i2 := step (Rendered p2) i1 in
  let failed :=
    store (handle Date_parse_iso (Load Sample.http500) initialWorld) in
  let typed :=
    store (handle Date_parse_iso (TypeQuery "a") (Sample.world failed)) in
  let j1 := steps [Rendered (propsOfRender 0 failed); Elapsed 2000] start in
  let j2 := step (Rendered (propsOfRender 1 typed)) j1 in
  (message p1 <> message p2 /\
   timers (host i2) = [ {| timerId := 0; due := 3000; callback := 0 |} ] /\
   timers (host i2) = timers (host i1) /\
   called (host (step (Elapsed 1000) i2)) = [0%nat])
  /\
  (message (propsOfRender 1 typed) = message (propsOfRender 0 failed) /\
   isVisible (propsOfRender 1 typed) = isVisible (propsOfRender 0 failed) /\
   timers (host j1) = [ {| timerId := 0; due := 3000; callback := 0 |} ] /\
   timers (host j2) = [ {| timerId := 1; due := 5000; callback := 1 |} ] /\
   called (host (step (Elapsed 1000) j2)) = []).
Proof. cbv zeta. repeat split; try reflexivity. discriminate. Qed.

(** C8, as the code has it. Over any life of a Snackbar instance: at
    most one timer is pending; a commit runs the effect exactly when
    the component mounts or [isVisible] or the identity of [onClose]
    differs from the last run, the message playing no part; such a
    run clears the pending timer and, when [isVisible] is true,
    schedules one timer for 3000 ms later, which calls [onClose] once
    when 3000 ms have passed and never again, however the time is
    sliced; a commit with the same [isVisible] and [onClose] leaves
    the timer alone; [MessagingInterface] passes a new [onClose] at
    each render, so each of its renders runs the effect again; after
    the component is removed no timer is pending. *)
Theorem snackbar_timer (l : list Step) (p : Props) (dts : list N) :
  let i := steps l start in
  let i' := step (Rendered p) i in
  (List.length (timers (host i)) <= 1)%nat /\
  (if reruns p (hook i) then
     timers (host i') = (if isVisible p then [scheduled p (host i)] else []) /\
     called (host (steps (map Elapsed dts) i')) =
       called (host i)
       ++ (if isVisible p && (3000 <=? total dts) then [onClose p] else [])
   else i' = i) /\
  (forall m, reruns {| message := m; isVisible := isVisible p;
                       onClose := onClose p |} (hook i)
             = reruns p (hook i)) /\
  (forall n r r',
      reruns (propsOfRender (S n) r')
             (hook (step (Rendered (propsOfRender n r)) i)) = true) /\
  timers (host (step Removed i)) = [].
Proof.
  cbv zeta.
  pose proof (wellTimed_steps l start wellTimed_start) as Hw.
  set (i := steps l start) in *.
  split; [|split; [|split; [|split]]].
  - destruct Hw as [Hnone|[k [t [d [_ [_ Ht]]]]]].
    + rewrite Hnone. simpl. lia.
    + rewrite Ht. simpl. lia.
  - destruct (reruns p (hook i)) eqn:Hr.
    + destruct (commit_rerun p i Hw Hr) as [Ht [Hc [Hn _]]].
      split; [exact Ht|].
      destruct (isVisible p).
      * rewrite (elapse_one_timer dts _ (scheduled p (host i)) Ht).
        -- rewrite Hc, Hn. rewrite andb_true_l. unfold scheduled. cbn [due callback].
           destruct (N.leb_spec (now (host i) + 3000) (now (host i) + total dts)),
                    (N.leb_spec 3000 (total dts)); try reflexivity; lia.
        -- rewrite Hn. unfold scheduled. cbn [due]. lia.
      * rewrite (elapse_idle dts _ Ht), Hc. rewrite andb_false_l.
        now rewrite app_nil_r.
    + now apply commit_same_deps.
  - intros m. destruct (hook i); reflexivity.
  - intros n r r'.
    destruct (deps_after_commit (propsOfRender n r) i) as [k [Hk Hd]].
    rewrite Hk. simpl. unfold sameDeps. rewrite Hd. simpl.
    rewrite (proj2 (Nat.eqb_neq n (S n))) by lia.
    now rewrite andb_false_r.
  - simpl. destruct (hook i) as [k|] eqn:Hk.
    + simpl. now apply runCleanup_wellTimed.
    + now apply wellTimed_no_hook.
Qed.

(** The error is shown, 3000 ms pass without a render, the
    notification is closed once; the page then renders it hidden and
    no timer is left. *)
Example snackbar_hides_after_3000 :
  let failed :=
    store (handle Date_parse_iso (Load Sample.http500) initialWorld) in
  let closed :=
    store (handle Date_parse_iso CloseSnackbar (Sample.world failed)) in
  let i := steps [Rendered (propsOfRender 0 failed); Elapsed 2999] start in
  let j := steps [Elapsed 1; Rendered (propsOfRender 1 closed);
                  Elapsed 10000] i in
  called (host i) = [] /\
  called (host j) = [0%nat] /\
  timers (host j) = [] /\
  isVisible (propsOfRender 1 closed) = false.
Proof. repeat split; reflexivity. Qed.

End SnackbarClaims.

(* ------------------------------------------------------------------ *)
(** * What the page keeps over its life *)

(** Every invocation of [fetchSessions] ends in one of three ways. *)
Lemma fetchSessions_cases (Date_parse : string -> JS.number)
    (r : Render) (res : FetchResult) (w : World) :
  let w' := snd (fetchSessions Date_parse r res w) in
  (fetchSessions_guard r = true /\ w' = w)
  \/
  (fetchSessions_guard r = false /\
   network w' = network w ++ [fetchRequest r] /\
   loading (store w') = false /\
   sameView (store w') (store w) /\
   ((exists d fetched,
        Success res d fetched /\
        sessions (store w') =
          JS.sort (compareSessions Date_parse)
            (sessions (store w)
             ++ JS.sort (compareSessions Date_parse) fetched) /\
        page (store w') = page (store w) + 1 /\
        totalPages (store w') = orNull (total_pages d) /\
        error (store w') = error (store w) /\
        isSnackbarVisible (store w') = isSnackbarVisible (store w))
    \/
    (exists msg,
        Failure res msg /\
        sessions (store w') = sessions (store w) /\
        page (store w') = page (store w) /\
        error (store w') = Some msg /\
        isSnackbarVisible (store w') = true))).
Proof.
  cbv zeta. destruct (fetchSessions_guard r) eqn:Hg.
  - left. split; [reflexivity|].
    now rewrite (fetchSessions_blocked Date_parse r res w Hg).
  - right. split; [reflexivity|].
    run_fetch. rewrite Hg. cbn.
    destruct res as [e|status [e|d]]; cbn.
    + repeat split. right. exists (JS.message e). repeat split. constructor.
    + destruct (ok status) eqn:Hok; cbn; repeat split; right;
        eexists; repeat split; constructor; assumption.
    + destruct (ok status) eqn:Hok; cbn.
      * destruct (chat_sessions d) as [fetched|] eqn:Hc; cbn; repeat split.
        -- left. exists d, fetched. repeat split; assumption.
        -- right. eexists. repeat split. constructor; assumption.
      * repeat split. right. eexists. repeat split. constructor; assumption.
Qed.

(** What an event other than a load leaves alone. *)
Lemma handle_other (Date_parse : string -> JS.number) (e : Event) (w : World) :
  match e with
  | Load _ => True
  | _ =>
      let w' := handle Date_parse e w in
      network w' = network w /\
      sessions (store w') = sessions (store w) /\
      page (store w') = page (store w) /\
      totalPages (store w') = totalPages (store w) /\
      loading (store w') = loading (store w) /\
      error (store w') = error (store w) /\
      (isClose e = false ->
       isSnackbarVisible (store w') = isSnackbarVisible (store w))
  end.
Proof.
  destruct e; try exact I; cbv zeta; unfold handle.
  - unfold handleSessionClick.
    destruct (find _ (sessions (store w))); cbn; tauto.
  - cbn; tauto.
  - cbn; tauto.
  - cbn; tauto.
  - cbn; tauto.
  - cbn; tauto.
  - cbn. repeat split. discriminate.
Qed.

Lemma run_cons (Date_parse : string -> JS.number)
    (e : Event) (es : list Event) (w : World) :
  run Date_parse (e :: es) w = run Date_parse es (handle Date_parse e w).
Proof. reflexivity. Qed.

Lemma merged_incl (Date_parse : string -> JS.number)
    (prev fetched : list ChatSession.t) :
  incl prev
    (JS.sort (compareSessions Date_parse)
       (prev ++ JS.sort (compareSessions Date_parse) fetched)).
Proof.
  intros s Hs. apply sort_In, in_app_iff. now left.
Qed.

Lemma handle_keeps_sessions (Date_parse : string -> JS.number)
    (e : Event) (w : World) :
  let w' := handle Date_parse e w in
  incl (sessions (store w)) (sessions (store w')) /\
  (forall i, (occurrences i (sessions (store w))
              <= occurrences i (sessions (store w')))%nat) /\
  (List.length (sessions (store w)) <= List.length (sessions (store w')))%nat.
Proof.
  cbv zeta. destruct e as [res| | | | | | |];
    [|match goal with
      | |- context [handle Date_parse ?e ?w0] =>
          destruct (handle_other Date_parse e w0) as [_ [Hs _]]
      end;
      rewrite Hs; split; [apply incl_refl|split; intros; lia] ..].
  unfold handle.
  destruct (fetchSessions_cases Date_parse (store w) res w)
    as [[_ ->]|[_ [_ [_ [_ [[d [f [_ [Hs _]]]]|[msg [_ [Hs _]]]]]]]]].
  - split; [apply incl_refl|split; intros; lia].
  - rewrite Hs.
    pose proof (merge_permutation Date_parse (sessions (store w)) f) as HP.
    split; [apply merged_incl|split].
    + intros i. rewrite <- (occurrences_permutation i _ _ HP).
      rewrite occurrences_app. lia.
    + rewrite <- (Permutation_length HP), length_app. lia.
  - rewrite Hs. split; [apply incl_refl|split; intros; lia].
Qed.

(** X1. Loaded sessions are never removed: whatever events occur, every
    session in the list stays in it, each id occurs at least as often as
    before, and the list never gets shorter. *)
Theorem sessions_never_removed (Date_parse : string -> JS.number)
    (es : list Event) (w : World) :
  let w' := run Date_parse es w in
  incl (sessions (store w)) (sessions (store w')) /\
  (forall i, (occurrences i (sessions (store w))
              <= occurrences i (sessions (store w')))%nat) /\
  (List.length (sessions (store w)) <= List.length (sessions (store w')))%nat.
Proof.
  cbv zeta. revert w. induction es as [|e es IH]; intros w.
  - cbn. split; [apply incl_refl|split; intros; lia].
  - rewrite run_cons.
    destruct (handle_keeps_sessions Date_parse e w) as [Hi [Ho Hl]].
    destruct (IH (handle Date_parse e w)) as [Hi' [Ho' Hl']].
    cbv zeta in *. split; [|split].
    + eapply incl_tran; eassumption.
    + intros i. specialize (Ho i). specialize (Ho' i). lia.
    + lia.
Qed.

Lemma retained_same_criteria (Date_parse : string -> JS.number)
    (toLowerCase : string -> string)
    (a b : Render) (s : ChatSession.t) :
  searchQuery a = searchQuery b -> startDate a = startDate b ->
  endDate a = endDate b ->
  retained Date_parse toLowerCase a s = retained Date_parse toLowerCase b s.
Proof.
  intros Hq Hs He. unfold retained, isWithinDateRange.
  now rewrite Hq, Hs, He.
Qed.

(** X2. An invocation of [fetchSessions], by any render and with any
    outcome, writes neither the selection, nor the message view, nor
    the filter inputs; and every session shown in the list before is
    shown after. *)
Theorem fetchSessions_keeps_view (Date_parse : string -> JS.number)
    (toLowerCase : string -> string)
    (r : Render) (res : FetchResult) (w : World) :
  let w' := snd (fetchSessions Date_parse r res w) in
  sameView (store w') (store w) /\
  incl (filteredSessions Date_parse toLowerCase (store w))
       (filteredSessions Date_parse toLowerCase (store w')).
Proof.
  cbv zeta.
  assert (Hv : sameView (store (snd (fetchSessions Date_parse r res w)))
                        (store w)).
  { destruct (fetchSessions_cases Date_parse r res w)
      as [[_ ->]|[_ [_ [_ [Hv _]]]]]; [|exact Hv].
    repeat split. }
  split; [exact Hv|].
  destruct Hv as [_ [_ [Hq [Hs [He _]]]]].
  intros s Hin. unfold filteredSessions in *.
  apply filter_In in Hin as [Hin Hr]. apply filter_In. split.
  - destruct (fetchSessions_cases Date_parse r res w)
      as [[_ ->]|[_ [_ [_ [_ [[d [f [_ [E _]]]]|[msg [_ [E _]]]]]]]]].
    + exact Hin.
    + rewrite E. now apply merged_incl.
    + now rewrite E.
  - now rewrite (retained_same_criteria Date_parse toLowerCase _ (store w) s
                   Hq Hs He).
Qed.

Lemma handle_keeps_error (Date_parse : string -> JS.number)
    (e : Event) (w : World) (m : string) :
  error (store w) = Some m ->
  exists m', error (store (handle Date_parse e w)) = Some m'.
Proof.
  intros Herr. destruct e as [res| | | | | | |];
    [|match goal with
      | |- context [handle Date_parse ?e ?w0] =>
          destruct (handle_other Date_parse e w0) as [_ [_ [_ [_ [_ [He _]]]]]]
      end; exists m; now rewrite He ..].
  unfold handle.
  destruct (fetchSessions_cases Date_parse (store w) res w)
    as [[_ ->]|[_ [_ [_ [_ [[d [f [_ [_ [_ [_ [E _]]]]]]]|[msg [_ [_ [_ [E _]]]]]]]]]]].
  - now exists m.
  - exists m. now rewrite E.
  - now exists msg.
Qed.

Lemma handle_keeps_visible (Date_parse : string -> JS.number)
    (e : Event) (w : World) :
  isClose e = false ->
  isSnackbarVisible (store w) = true ->
  isSnackbarVisible (store (handle Date_parse e w)) = true.
Proof.
  intros Hc Hv. destruct e as [res| | | | | | |];
    [|match goal with
      | |- context [handle Date_parse ?e ?w0] =>
          destruct (handle_other Date_parse e w0)
            as [_ [_ [_ [_ [_ [_ H]]]]]]
      end; rewrite (H Hc); exact Hv ..].
  unfold handle.
  destruct (fetchSessions_cases Date_parse (store w) res w)
    as [[_ ->]|[_ [_ [_ [_ [[d [f [_ [_ [_ [_ [_ E]]]]]]]|[msg [_ [_ [_ [_ E]]]]]]]]]]].
  - exact Hv.
  - now rewrite E.
  - exact E.
Qed.

(** X3. No code path clears the error or hides the notification except
    [onClose]: once an error is recorded, [error] is never null again
    whatever follows (a later successful load included), and a visible
    notification stays visible over any events other than its closing. *)
Theorem error_never_cleared (Date_parse : string -> JS.number)
    (after open : list Event) (w : World) (m : string)
    (Herr : error (store w) = Some m)
    (Hvis : isSnackbarVisible (store w) = true)
    (Hopen : forallb (fun e => negb (isClose e)) open = true) :
  (exists m', error (store (run Date_parse after w)) = Some m') /\
  isSnackbarVisible (store (run Date_parse open w)) = true.
Proof.
  split.
  - clear Hvis Hopen open. revert w m Herr.
    induction after as [|e es IH]; intros w m Herr.
    + now exists m.
    + rewrite run_cons.
      destruct (handle_keeps_error Date_parse e w m Herr) as [m' H'].
      now apply (IH _ m').
  - clear Herr after. revert w Hvis.
    induction open as [|e es IH]; intros w Hvis.
    + exact Hvis.
    + rewrite run_cons. simpl in Hopen.
      apply andb_true_iff in Hopen as [He Hes].
      apply negb_true_iff in He.
      apply (IH Hes). now apply handle_keeps_visible.
Qed.

Lemma error_never_cleared_witness :
  let w := Sample.world
             (store (handle Date_parse_iso (Load Sample.http500) initialWorld)) in
  let later := [Load (Sample.page_of (Some 3) [Sample.alice]); Click 7;
                TypeQuery "al"] in
  error (store w) = Some "Failed to fetch sessions. Please try again." /\
  isSnackbarVisible (store w) = true /\
  forallb (fun e => negb (isClose e)) later = true /\
  (exists m', error (store (run Date_parse_iso (CloseSnackbar :: later) w))
              = Some m') /\
  isSnackbarVisible (store (run Date_parse_iso later w)) = true.
Proof.
  cbv zeta. split; [reflexivity|]. split; [reflexivity|]. split; [reflexivity|].
  exact (error_never_cleared Date_parse_iso
           (CloseSnackbar
              :: [Load (Sample.page_of (Some 3) [Sample.alice]); Click 7;
                  TypeQuery "al"])
           [Load (Sample.page_of (Some 3) [Sample.alice]); Click 7;
            TypeQuery "al"]
           (Sample.world
              (store (handle Date_parse_iso (Load Sample.http500) initialWorld)))
           "Failed to fetch sessions. Please try again."
           eq_refl eq_refl eq_refl).
Defined.

(** ** The order of the requests *)

Lemma StronglySorted_snoc_le (ps : list Z) (p : Z) :
  StronglySorted Z.le ps -> Forall (fun q => q <= p) ps ->
  StronglySorted Z.le (ps ++ [p]).
Proof.
  induction 1 as [|a l Hs IH Ha]; intros Hall; simpl.
  - repeat constructor.
  - inversion Hall as [|? ? Hap Hl]; subst. constructor.
    + now apply IH.
    + apply Forall_app. split; [exact Ha|]. now repeat constructor.
Qed.

Lemma Trail_facts (ps : list Z) (p : Z) :
  Trail ps p ->
  1 <= p /\
  Forall (fun q => 1 <= q <= p) ps /\
  (forall k, 1 <= k < p -> In k ps) /\
  StronglySorted Z.le ps.
Proof.
  induction 1 as [|ps p _ [H1 [Hb [Hc Hs]]]|ps p _ [H1 [Hb [Hc Hs]]]].
  - repeat split; [lia|constructor|intros; lia|constructor].
  - split; [exact H1|]. split; [|split].
    + apply Forall_app. split; [exact Hb|]. repeat constructor; lia.
    + intros k Hk. apply in_app_iff. left. now apply Hc.
    + apply StronglySorted_snoc_le; [exact Hs|].
      eapply Forall_impl; [|exact Hb]. simpl. intros; lia.
  - split; [lia|]. split; [|split].
    + apply Forall_app. split.
      * eapply Forall_impl; [|exact Hb]. simpl. intros; lia.
      * repeat constructor; lia.
    + intros k Hk. apply in_app_iff.
      destruct (Z.eq_dec k p) as [->|Hne]; [right; now left|].
      left. apply Hc. lia.
    + apply StronglySorted_snoc_le; [exact Hs|].
      eapply Forall_impl; [|exact Hb]. simpl. intros; lia.
Qed.

Lemma handle_keeps_trail (Date_parse : string -> JS.number)
    (e : Event) (w : World) :
  Trail (map req_page (network w)) (page (store w)) ->
  Forall (fun q => req_url q = API_URL /\ req_per_page q = 20) (network w) ->
  let w' := handle Date_parse e w in
  Trail (map req_page (network w')) (page (store w')) /\
  Forall (fun q => req_url q = API_URL /\ req_per_page q = 20) (network w').
Proof.
  intros Ht Hf. cbv zeta. destruct e as [res| | | | | | |];
    [|match goal with
      | |- context [handle Date_parse ?e ?w0] =>
          destruct (handle_other Date_parse e w0) as [Hn [_ [Hp _]]]
      end; rewrite Hn, Hp; now split ..].
  unfold handle.
  destruct (fetchSessions_cases Date_parse (store w) res w)
    as [[_ ->]|[_ [Hn [_ [_ [[d [f [_ [_ [Hp _]]]]]|[msg [_ [_ [Hp _]]]]]]]]]].
  - now split.
  - rewrite Hn, Hp, map_app. split.
    + now apply trail_advance.
    + apply Forall_app. split; [exact Hf|]. now repeat constructor.
  - rewrite Hn, Hp, map_app. split.
    + now apply trail_stay.
    + apply Forall_app. split; [exact Hf|]. now repeat constructor.
Qed.

Lemma run_keeps_trail (Date_parse : string -> JS.number)
    (es : list Event) (w : World) :
  Trail (map req_page (network w)) (page (store w)) ->
  Forall (fun q => req_url q = API_URL /\ req_per_page q = 20) (network w) ->
  let w' := run Date_parse es w in
  Trail (map req_page (network w')) (page (store w')) /\
  Forall (fun q => req_url q = API_URL /\ req_per_page q = 20) (network w').
Proof.
  revert w. induction es as [|e es IH]; intros w Ht Hf; cbv zeta.
  - now split.
  - rewrite run_cons.
    destruct (handle_keeps_trail Date_parse e w Ht Hf) as [Ht' Hf'].
    now apply IH.
Qed.

(** X4. When each invocation of [fetchSessions] comes from the current
    render and settles before the next event, the pages are requested in
    order and none is skipped: from the initial state, after any events,
    the requested page numbers are non-decreasing, lie between 1 and the
    cursor, include every page below the cursor, and every request goes
    to the same URL with [per_page=20]. *)
Theorem requests_in_order (Date_parse : string -> JS.number)
    (es : list Event) :
  let w := run Date_parse es initialWorld in
  let pages := map req_page (network w) in
  Trail pages (page (store w)) /\
  1 <= page (store w) /\
  Forall (fun q => 1 <= q <= page (store w)) pages /\
  (forall k, 1 <= k < page (store w) -> In k pages) /\
  StronglySorted Z.le pages /\
  Forall (fun q => req_url q = API_URL /\ req_per_page q = 20) (network w).
Proof.
  cbv zeta.
  destruct (run_keeps_trail Date_parse es initialWorld) as [Ht Hf];
    [constructor|constructor|].
  cbv zeta in Ht, Hf.
  destruct (Trail_facts _ _ Ht) as [H1 [Hb [Hc Hs]]].
  repeat split; assumption.
Qed.

(** ** Ties and the order on screen *)

Section Stability.
Context {A : Type} (comparefn : A -> A -> JS.number) (key : A -> Z).

Lemma insert_filter_key (a : A) (l : list A) (k : Z) :
  JS.subtractsKeys comparefn key (a :: l) ->
  filter (fun x => key x =? k) (JS.insert comparefn a l)
  = filter (fun x => key x =? k) (a :: l).
Proof.
  intros Hk. induction l as [|b l IH]; [reflexivity|].
  simpl JS.insert.
  rewrite (after_key comparefn key (a :: b :: l)) by (simpl; auto).
  destruct (Z.ltb_spec (key a) (key b)) as [Hlt|Hge]; [|reflexivity].
  assert (IH' : filter (fun x => key x =? k) (JS.insert comparefn a l)
                = filter (fun x => key x =? k) (a :: l)).
  { apply IH. intros x y Hx Hy. apply Hk; simpl in *; tauto. }
  simpl. simpl in IH'. rewrite IH'.
  destruct (Z.eqb_spec (key b) k) as [Hb|Hb];
    destruct (Z.eqb_spec (key a) k) as [Ha|Ha]; try reflexivity.
  lia.
Qed.

(** The sort is stable: elements with the same key keep their order. *)
Lemma sort_filter_key (l : list A) (k : Z) :
  JS.subtractsKeys comparefn key l ->
  filter (fun x => key x =? k) (JS.sort comparefn l)
  = filter (fun x => key x =? k) l.
Proof.
  induction l as [|a l IH]; intros Hk; [reflexivity|].
  simpl JS.sort. rewrite insert_filter_key.
  - simpl. rewrite IH; [reflexivity|].
    intros x y Hx Hy. apply Hk; now right.
  - intros x y Hx Hy. apply Hk.
    + destruct Hx as [<-|Hx]; [now left|right; apply (proj1 (sort_In comparefn l x)), Hx].
    + destruct Hy as [<-|Hy]; [now left|right; apply (proj1 (sort_In comparefn l y)), Hy].
Qed.
End Stability.

Lemma recentFirst_permutation (Date_parse : string -> JS.number)
    (l l' : list ChatSession.t) :
  Permutation l l' ->
  Forall (fun s => Spec.recentFirst Date_parse s = true) l ->
  Forall (fun s => Spec.recentFirst Date_parse s = true) l'.
Proof.
  intros HP Hl. rewrite Forall_forall in *. intros s Hs.
  apply Hl. eapply Permutation_in; [apply Permutation_sym, HP|exact Hs].
Qed.

(** X5. Sessions of equal recency keep their order through a merge: for
    every instant, the sessions whose most recent message has that
    instant appear in the merged list as those already loaded, in the
    order they had, followed by those of the page, in the order the
    backend sent them. *)
Theorem merge_keeps_order_of_ties
    (Date_parse : string -> JS.number) (Date_parse_empty : Date_parse "" = None)
    (r : Render) (w : World) (res : FetchResult) (d : Data)
    (fetched : list ChatSession.t) (t : Z)
    (Hguard : fetchSessions_guard r = false)
    (Hres : Success res d fetched)
    (Hshape : Forall (fun s => Spec.recentFirst Date_parse s = true)
                     (sessions (store w) ++ fetched)) :
  let at_t := filter (fun s => Spec.recency Date_parse s =? t) in
  at_t (sessions (store (snd (fetchSessions Date_parse r res w))))
  = at_t (sessions (store w)) ++ at_t fetched.
Proof.
  cbv zeta.
  destruct (fetchSessions_success_store Date_parse r w res d fetched Hguard Hres)
    as [Hs _].
  cbv zeta in Hs. rewrite Hs.
  rewrite (sort_filter_key (compareSessions Date_parse) (Spec.recency Date_parse)).
  - rewrite filter_app. f_equal.
    apply sort_filter_key.
    apply compareSessions_subtracts; [exact Date_parse_empty|].
    apply Forall_app in Hshape. tauto.
  - apply compareSessions_subtracts; [exact Date_parse_empty|].
    eapply recentFirst_permutation; [|exact Hshape].
    apply Permutation_app_head, sort_permutation.
Qed.

Lemma merge_keeps_order_of_ties_witness :
  let loaded := Sample.loaded [Sample.alice; Sample.bob] in
  let res := Sample.page_of (Some 3) [Sample.carol; Sample2.twin] in
  Date_parse_iso "" = None /\
  fetchSessions_guard loaded = false /\
  Success res (Sample2.data (Some 3) [Sample.carol; Sample2.twin])
          [Sample.carol; Sample2.twin] /\
  Forall (fun s => Spec.recentFirst Date_parse_iso s = true)
         (sessions (store (Sample.world loaded))
          ++ [Sample.carol; Sample2.twin]) /\
  sessions (store (snd (fetchSessions Date_parse_iso loaded res
                          (Sample.world loaded))))
  = [Sample.alice; Sample.bob; Sample2.twin; Sample.carol] /\
  filter (fun s => Spec.recency Date_parse_iso s =? 1704412800000)
    (sessions (store (snd (fetchSessions Date_parse_iso loaded res
                             (Sample.world loaded)))))
  = filter (fun s => Spec.recency Date_parse_iso s =? 1704412800000)
      (sessions (store (Sample.world loaded)))
    ++ filter (fun s => Spec.recency Date_parse_iso s =? 1704412800000)
         [Sample.carol; Sample2.twin].
Proof.
  cbv zeta.
  assert (Hres : Success
            (Sample.page_of (Some 3) [Sample.carol; Sample2.twin])
            (Sample2.data (Some 3) [Sample.carol; Sample2.twin])
            [Sample.carol; Sample2.twin]).
  { now constructor. }
  assert (Hshape : Forall (fun s => Spec.recentFirst Date_parse_iso s = true)
            (sessions (store (Sample.world
                                (Sample.loaded [Sample.alice; Sample.bob])))
             ++ [Sample.carol; Sample2.twin])).
  { repeat constructor. }
  split; [reflexivity|]. split; [reflexivity|]. split; [exact Hres|].
  split; [exact Hshape|]. split; [reflexivity|].
  exact (merge_keeps_order_of_ties Date_parse_iso eq_refl
           (Sample.loaded [Sample.alice; Sample.bob])
           (Sample.world (Sample.loaded [Sample.alice; Sample.bob]))
           _ _ _ 1704412800000 eq_refl Hres Hshape).
Defined.

Lemma StronglySorted_filter {A} (R : A -> A -> Prop) (f : A -> bool)
    (l : list A) :
  StronglySorted R l -> StronglySorted R (filter f l).
Proof.
  induction 1 as [|a l Hs IH Ha]; simpl; [constructor|].
  destruct (f a); [|exact IH]. constructor; [exact IH|].
  rewrite Forall_forall in *. intros x Hx.
  apply filter_In in Hx as [Hx _]. now apply Ha.
Qed.

Lemma handle_keeps_newestFirst
    (Date_parse : string -> JS.number) (Date_parse_empty : Date_parse "" = None)
    (e : Event) (w : World) :
  Forall (fun s => Spec.recentFirst Date_parse s = true) (delivered e) ->
  Forall (fun s => Spec.recentFirst Date_parse s = true) (sessions (store w)) ->
  Spec.newestFirst Date_parse (sessions (store w)) ->
  let w' := handle Date_parse e w in
  Forall (fun s => Spec.recentFirst Date_parse s = true) (sessions (store w')) /\
  Spec.newestFirst Date_parse (sessions (store w')).
Proof.
  intros Hd Hl Hn. cbv zeta. destruct e as [res| | | | | | |];
    [|match goal with
      | |- context [handle Date_parse ?e ?w0] =>
          destruct (handle_other Date_parse e w0) as [_ [Hs _]]
      end; rewrite Hs; now split ..].
  unfold handle.
  destruct (fetchSessions_cases Date_parse (store w) res w)
    as [[_ ->]|[_ [_ [_ [_ [[d [f [Hres [Hs _]]]]|[msg [_ [Hs _]]]]]]]]].
  - now split.
  - rewrite Hs. destruct Hres as [status d f Hok Hc].
    simpl in Hd. rewrite Hc in Hd.
    assert (Hall : Forall (fun s => Spec.recentFirst Date_parse s = true)
                     (sessions (store w) ++ f)).
    { apply Forall_app. now split. }
    split.
    + eapply recentFirst_permutation; [apply merge_permutation|exact Hall].
    + apply sort_newestFirst; [exact Date_parse_empty|].
      eapply recentFirst_permutation; [|exact Hall].
      apply Permutation_app_head, sort_permutation.
  - rewrite Hs. now split.
Qed.

(** X6. The list on screen is always newest first: from the initial state,
    whatever events occur and however the filter is set, if the sessions
    the backend delivers have its shape (valid timestamps, messages most
    recent first), the loaded list and the filtered list are in
    descending order of the most recent message timestamp. *)
Theorem displayed_newest_first
    (Date_parse : string -> JS.number)
    (toLowerCase : string -> string) (Date_parse_empty : Date_parse "" = None)
    (es : list Event)
    (Hshape : Forall (fun s => Spec.recentFirst Date_parse s = true)
                     (flat_map delivered es)) :
  let w := run Date_parse es initialWorld in
  Spec.newestFirst Date_parse (sessions (store w)) /\
  Spec.newestFirst Date_parse (filteredSessions Date_parse toLowerCase (store w)).
Proof.
  cbv zeta.
  assert (H : forall w0,
             Forall (fun s => Spec.recentFirst Date_parse s = true)
                    (sessions (store w0)) ->
             Spec.newestFirst Date_parse (sessions (store w0)) ->
             Spec.newestFirst Date_parse
               (sessions (store (run Date_parse es w0)))).
  { induction es as [|e es IH]; intros w0 Hl Hn; [exact Hn|].
    rewrite run_cons. simpl in Hshape. apply Forall_app in Hshape as [He Hes].
    destruct (handle_keeps_newestFirst Date_parse Date_parse_empty e w0 He Hl Hn)
      as [Hl' Hn'].
    now apply IH. }
  assert (Hs : Spec.newestFirst Date_parse
                 (sessions (store (run Date_parse es initialWorld)))).
  { apply H; constructor. }
  split; [exact Hs|].
  unfold filteredSessions. now apply StronglySorted_filter.
Qed.

Lemma displayed_newest_first_witness :
  let es := [Load (Sample.page_of (Some 2) [Sample.carol; Sample.alice]);
             Load Sample.http500; TypeQuery "o";
             Load (Sample.page_of (Some 2) [Sample.idle; Sample.bob])] in
  Date_parse_iso "" = None /\
  Forall (fun s => Spec.recentFirst Date_parse_iso s = true)
         (flat_map delivered es) /\
  sessions (store (run Date_parse_iso es initialWorld))
  = [Sample.alice; Sample.bob; Sample.carol; Sample.idle] /\
  filteredSessions Date_parse_iso JS.asciiToLowerCase (store (run Date_parse_iso es initialWorld))
  = [Sample.alice; Sample.bob; Sample.carol] /\
  Spec.newestFirst Date_parse_iso
    (sessions (store (run Date_parse_iso es initialWorld))) /\
  Spec.newestFirst Date_parse_iso
    (filteredSessions Date_parse_iso JS.asciiToLowerCase
       (store (run Date_parse_iso es initialWorld))).
Proof.
  cbv zeta.
  assert (Hshape : Forall (fun s => Spec.recentFirst Date_parse_iso s = true)
            (flat_map delivered
               [Load (Sample.page_of (Some 2) [Sample.carol; Sample.alice]);
                Load Sample.http500; TypeQuery "o";
                Load (Sample.page_of (Some 2) [Sample.idle; Sample.bob])])).
  { repeat constructor. }
  split; [reflexivity|]. split; [exact Hshape|].
  split; [reflexivity|]. split; [reflexivity|].
  exact (displayed_newest_first Date_parse_iso JS.asciiToLowerCase eq_refl _
           Hshape).
Defined.

(** ** Narrowing the search, and timestamps that are not dates *)

Lemma string_app_assoc (a b c : string) :
  ((a ++ b) ++ c)%string = (a ++ (b ++ c))%string.
Proof. induction a as [|x a IH]; simpl; [reflexivity|now rewrite IH]. Qed.

Lemma includes_trans (s q' q : string) :
  JS.includes s q' = true -> JS.includes q' q = true ->
  JS.includes s q = true.
Proof.
  rewrite !includes_spec. intros [a [b ->]] [c [d ->]].
  exists (a ++ c)%string, (d ++ b)%string.
  now rewrite !string_app_assoc.
Qed.

Lemma filter_narrower {A} (f g : A -> bool) (l : list A) :
  (forall x, f x = true -> g x = true) ->
  Spec.Subsequence (filter f l) (filter g l).
Proof.
  intros Himp. induction l as [|a l IH]; simpl; [constructor|].
  destruct (f a) eqn:Hf.
  - rewrite (Himp a Hf). now constructor.
  - destruct (g a); [now constructor|exact IH].
Qed.

(** X7. Typing an ASCII query that contains the previous ASCII query (up
    to case) only narrows the list: what is shown afterwards is a
    subsequence of what was shown before.  Clearing the query is the
    converse case: every query contains the empty one. *)
Theorem narrower_query_shows_fewer
    (Date_parse : string -> JS.number) (toLowerCase : string -> string)
    (w : World) (value : string)
    (Hhost : JS.agreesOnAscii toLowerCase)
    (Hvalue : JS.isAscii value = true)
    (Hquery : JS.isAscii (searchQuery (store w)) = true)
    (Hcontains : Spec.containsIgnoringCase value (searchQuery (store w))) :
  Spec.Subsequence
    (filteredSessions Date_parse toLowerCase
       (store (handle Date_parse (TypeQuery value) w)))
    (filteredSessions Date_parse toLowerCase (store w)).
Proof.
  apply includes_toLowerCase in Hcontains.
  rewrite <- (Hhost _ Hvalue), <- (Hhost _ Hquery) in Hcontains.
  unfold filteredSessions, handle. cbn.
  apply filter_narrower. intros s Hr.
  unfold retained, isWithinDateRange in *. cbn in Hr.
  apply andb_true_iff in Hr as [Hn Hd]. apply andb_true_iff. split.
  - eapply includes_trans; eassumption.
  - exact Hd.
Qed.

Lemma narrower_query_shows_fewer_witness :
  let w := Sample.world
             (Sample.filtering [Sample.alice; Sample.bob; Sample.carol]
                               "O" "" "") in
  JS.agreesOnAscii JS.asciiToLowerCase /\
  JS.isAscii "bob" = true /\
  JS.isAscii (searchQuery (store w)) = true /\
  Spec.containsIgnoringCase "bob" (searchQuery (store w)) /\
  filteredSessions Date_parse_iso JS.asciiToLowerCase (store w)
  = [Sample.alice; Sample.bob; Sample.carol] /\
  filteredSessions Date_parse_iso JS.asciiToLowerCase
    (store (handle Date_parse_iso (TypeQuery "bob") w)) = [Sample.bob] /\
  Spec.Subsequence
    (filteredSessions Date_parse_iso JS.asciiToLowerCase
       (store (handle Date_parse_iso (TypeQuery "bob") w)))
    (filteredSessions Date_parse_iso JS.asciiToLowerCase (store w)).
Proof.
  cbv zeta.
  assert (Hc : Spec.containsIgnoringCase "bob"
                 (searchQuery
                    (store (Sample.world
                              (Sample.filtering
                                 [Sample.alice; Sample.bob; Sample.carol]
                                 "O" "" ""))))).
  { apply includes_toLowerCase. reflexivity. }
  split; [intros s _; reflexivity|]. split; [reflexivity|].
  split; [reflexivity|]. split; [exact Hc|].
  split; [reflexivity|]. split; [reflexivity|].
  exact (narrower_query_shows_fewer Date_parse_iso JS.asciiToLowerCase
           (Sample.world
              (Sample.filtering [Sample.alice; Sample.bob; Sample.carol]
                                "O" "" ""))
           "bob" (fun s _ => eq_refl) eq_refl eq_refl Hc).
Defined.

(** X8. A session whose first timestamp the host cannot read as a date
    compares false with every bound: as soon as a start or an end date
    is set, whatever the dates, it is not in the filtered list. *)
Theorem undated_session_and_date_range
    (Date_parse : string -> JS.number) (toLowerCase : string -> string)
    (r : Render) (s : ChatSession.t)
    (Hnan : sessionDate Date_parse s = None)
    (Hbound : startDate r <> "" \/ endDate r <> "") :
  ~ In s (filteredSessions Date_parse toLowerCase r).
Proof.
  intros Hin. unfold filteredSessions in Hin.
  apply filter_In in Hin as [_ Hr]. unfold retained in Hr.
  apply andb_true_iff in Hr as [_ Hd].
  unfold isWithinDateRange in Hd. rewrite Hnan in Hd.
  apply andb_true_iff in Hd as [H1 H2].
  assert (Hge : forall x, JS.ge None x = false) by reflexivity.
  assert (Hle : forall x, JS.le None x = false) by (intros [x|]; reflexivity).
  rewrite Hge in H1. rewrite Hle in H2.
  rewrite orb_false_r in H1, H2.
  apply negb_true_iff in H1, H2.
  apply truthy_false in H1, H2. tauto.
Qed.

Lemma undated_session_and_date_range_witness :
  sessionDate Date_parse_iso Sample2.undated = None /\
  (startDate (Sample.filtering [Sample2.undated; Sample.alice]
                               "" "1970-01-01" "") <> "" \/
   endDate (Sample.filtering [Sample2.undated; Sample.alice]
                             "" "1970-01-01" "") <> "") /\
  filteredSessions Date_parse_iso JS.asciiToLowerCase
    (Sample.filtering [Sample2.undated; Sample.alice] "" "1970-01-01" "")
  = [Sample.alice] /\
  ~ In Sample2.undated
      (filteredSessions Date_parse_iso JS.asciiToLowerCase
         (Sample.filtering [Sample2.undated; Sample.alice]
                           "" "1970-01-01" "")).
Proof.
  assert (Hb : startDate (Sample.filtering [Sample2.undated; Sample.alice]
                                           "" "1970-01-01" "") <> "" \/
               endDate (Sample.filtering [Sample2.undated; Sample.alice]
                                         "" "1970-01-01" "") <> "").
  { left. discriminate. }
  split; [reflexivity|]. split; [exact Hb|]. split; [reflexivity|].
  exact (undated_session_and_date_range Date_parse_iso JS.asciiToLowerCase
           (Sample.filtering [Sample2.undated; Sample.alice]
                             "" "1970-01-01" "")
           Sample2.undated eq_refl Hb).
Defined.

(* ------------------------------------------------------------------ *)
(** * The effect that loads the pages *)

Section LifecycleFacts.
Import Lifecycle.
Variable Date_parse : string -> JS.number.
Variable serve : Z -> FetchResult.

Lemma effectRuns_after_spinner (m : Mounted) (p : Render) :
  lastRender m = Some p -> loading p = true ->
  loading (store (world m)) = false ->
  effectRuns m = true.
Proof.
  intros Hl Hp Hs. unfold effectRuns, sameFetchSessions.
  rewrite Hl, Hp, Hs. simpl. now rewrite andb_false_r.
Qed.

Lemma render_starts (m : Mounted) :
  effectRuns m = true ->
  fetchSessions_guard (store (world m)) = false ->
  world (render m) = snd (fetchSessions_start (store (world m)) (world m)) /\
  lastRender (render m) = Some (store (world m)) /\
  inflight (render m) = inflight m ++ [fetchRequest (store (world m))] /\
  loading (store (world (render m))) = true.
Proof.
  intros He Hg. unfold render. rewrite He.
  unfold fetchSessions_start. rewrite Hg. cbn. repeat split.
Qed.

Lemma render_blocked (m : Mounted) :
  fetchSessions_guard (store (world m)) = true ->
  world (render m) = world m /\
  lastRender (render m) = Some (store (world m)) /\
  inflight (render m) = inflight m.
Proof.
  intros Hg. unfold render. destruct (effectRuns m).
  - rewrite (fetchSessions_start_blocked _ _ Hg). cbn. repeat split.
  - cbn. repeat split.
Qed.

Lemma fetchSessions_unblocked (r : Render) (res : FetchResult) (w : World) :
  fetchSessions_guard r = false ->
  fetchSessions Date_parse r res w
  = fetchSessions_resume Date_parse res (snd (fetchSessions_start r w)).
Proof.
  intros Hg. unfold fetchSessions, fetchSessions_start, bind.
  rewrite Hg. reflexivity.
Qed.

(** With nothing in flight and the guard open, a cycle is one complete
    invocation of [fetchSessions] for the current page, and it leaves
    behind a render that has seen [loading = true]. *)
Lemma cycle_when_open (m : Mounted) :
  inflight m = [] ->
  effectRuns m = true ->
  fetchSessions_guard (store (world m)) = false ->
  world (cycle Date_parse serve m)
  = snd (fetchSessions Date_parse (store (world m))
           (serve (page (store (world m)))) (world m)) /\
  inflight (cycle Date_parse serve m) = [] /\
  exists p, lastRender (cycle Date_parse serve m) = Some p /\ loading p = true.
Proof.
  intros Hi He Hg.
  destruct (render_starts m He Hg) as [Hw1 [_ [Hi1 Hl1]]].
  rewrite Hi in Hi1. simpl in Hi1.
  assert (Hg1 : fetchSessions_guard (store (world (render m))) = true).
  { unfold fetchSessions_guard. now rewrite Hl1. }
  destruct (render_blocked (render m) Hg1) as [Hw2 [Hlast2 Hi2]].
  unfold cycle, respond. rewrite Hi2, Hi1. cbn.
  rewrite Hw2, Hw1, (fetchSessions_unblocked _ _ _ Hg).
  split; [reflexivity|]. split; [reflexivity|].
  exists (store (world (render m))). now split.
Qed.



Lemma cycles_S (n : nat) :
  cycles Date_parse serve (S n) = cycle Date_parse serve (cycles Date_parse serve n).
Proof. reflexivity. Qed.


End LifecycleFacts.

Section LifecycleClaims.
Import Lifecycle.
Variable Date_parse : string -> JS.number.
Variable serve : Z -> FetchResult.

Lemma fetchSessions_noJson (r : Render) (res : FetchResult) (w : World) :
  fetchSessions_guard r = false -> Lifecycle.noJson res = true ->
  let w' := snd (fetchSessions Date_parse r res w) in
  page (store w') = page (store w) /\
  totalPages (store w') = totalPages (store w) /\
  sessions (store w') = sessions (store w) /\
  loading (store w') = false /\
  (exists msg, error (store w') = Some msg) /\
  isSnackbarVisible (store w') = true /\
  network w' = network w ++ [fetchRequest r].
Proof.
  intros Hg Hn. cbv zeta. run_fetch. rewrite Hg. cbn.
  destruct res as [e|status [e|d]]; cbn in *.
  - repeat split. now eexists.
  - destruct (ok status); cbn; repeat split; now eexists.
  - apply negb_true_iff in Hn. rewrite Hn. cbn. repeat split. now eexists.
Qed.



(** X11. A failed fetch is retried without the user doing anything: the
    render after the failure has a new [fetchSessions] ([loading] went
    from true back to false), so the effect runs and sends the request
    again.  Against a backend whose answers never carry a JSON body,
    [n] cycles send [n] requests, all for page 1; the cursor stays at 1,
    nothing is loaded, and from the first failure on the error is set
    and the notification visible. *)
Theorem effect_retries_failed_page (n : nat)
    (Hserve : forall p, noJson (serve p) = true) :
  let m := cycles Date_parse serve n in
  network (world m) = repeat (requestFor 1) n /\
  page (store (world m)) = 1 /\
  sessions (store (world m)) = [] /\
  inflight m = [] /\
  match n with
  | O => error (store (world m)) = None
  | S _ => (exists msg, error (store (world m)) = Some msg) /\
           isSnackbarVisible (store (world m)) = true
  end.
Proof.
  cbv zeta.
  assert (H : inflight (cycles Date_parse serve n) = [] /\
              effectRuns (cycles Date_parse serve n) = true /\
              loading (store (world (cycles Date_parse serve n))) = false /\
              totalPages (store (world (cycles Date_parse serve n))) = None /\
              page (store (world (cycles Date_parse serve n))) = 1 /\
              sessions (store (world (cycles Date_parse serve n))) = [] /\
              network (world (cycles Date_parse serve n))
              = repeat (requestFor 1) n /\
              match n with
              | O => error (store (world (cycles Date_parse serve n))) = None
              | S _ =>
                  (exists msg,
                      error (store (world (cycles Date_parse serve n)))
                      = Some msg) /\
                  isSnackbarVisible (store (world (cycles Date_parse serve n)))
                  = true
              end).
  { induction n as [|n IH].
    - cbn. repeat split.
    - destruct IH as [Hi [He [Hl [Ht [Hp [Hs [Hnet _]]]]]]].
      assert (Hg : fetchSessions_guard
                     (store (world (cycles Date_parse serve n))) = false).
      { unfold fetchSessions_guard. now rewrite Hl, Ht. }
      rewrite cycles_S.
      destruct (cycle_when_open Date_parse serve _ Hi He Hg)
        as [Hw [Hi' [p [Hlast Hload]]]].
      destruct (fetchSessions_noJson _ (serve (page (store (world (cycles Date_parse serve n)))))
                  (world (cycles Date_parse serve n)) Hg (Hserve _))
        as [Hp' [Ht' [Hs' [Hl' [Herr [Hvis Hnet']]]]]].
      cbv zeta in *. rewrite <- Hw in Hp', Ht', Hs', Hl', Herr, Hvis, Hnet'.
      split; [exact Hi'|]. split.
      { eapply effectRuns_after_spinner; eassumption. }
      split; [exact Hl'|]. split; [congruence|]. split; [congruence|].
      split; [congruence|]. split; [|now split].
      rewrite Hnet', Hnet. unfold fetchRequest. rewrite Hp.
      fold (requestFor 1). now rewrite <- repeat_cons. }
  tauto.
Qed.

End LifecycleClaims.



Lemma effect_retries_failed_page_witness :
  (forall p, Lifecycle.noJson (Sample2.down p) = true) /\
  let m := Lifecycle.cycles Date_parse_iso Sample2.down 3 in
  network (Lifecycle.world m) = repeat (Lifecycle.requestFor 1) 3 /\
  page (store (Lifecycle.world m)) = 1 /\
  sessions (store (Lifecycle.world m)) = [] /\
  Lifecycle.inflight m = [] /\
  ((exists msg, error (store (Lifecycle.world m)) = Some msg) /\
   isSnackbarVisible (store (Lifecycle.world m)) = true).
Proof.
  split; [reflexivity|].
  exact (effect_retries_failed_page Date_parse_iso Sample2.down 3
           (fun p => eq_refl)).
Defined.

(** Three pages, five cycles: pages 1, 2, 3 are requested, then nothing. *)
Example effect_loads_three_pages :
  map req_page
    (network (Lifecycle.world
                (Lifecycle.cycles Date_parse_iso (Sample2.backend 3) 5)))
  = [1; 2; 3].
Proof. reflexivity. Qed.

(* ------------------------------------------------------------------ *)
(** * The observer of the last row *)

Section ObserverFacts.
Import Observer.

Lemma adjust_last {A} (f : A -> A) (l : list A) (a : A) :
  adjust f (List.length l) (l ++ [a]) = l ++ [f a].
Proof. induction l as [|x l IH]; simpl; [reflexivity|now rewrite IH]. Qed.

Lemma watched_disconnected (l : list IntersectionObserver) :
  Forall (fun x => targets x = []) l -> flat_map targets l = [].
Proof.
  induction 1 as [|x l Hx _ IH]; simpl; [reflexivity|now rewrite Hx, IH].
Qed.

Lemma watched_tidy (b : Browser) :
  tidy b -> (List.length (watched b) <= 1)%nat.
Proof.
  intros [->|[l [o [Ho [Hl [Hle _]]]]]]; [simpl; lia|].
  unfold watched. rewrite Ho, flat_map_app, (watched_disconnected l Hl).
  simpl. now rewrite app_nil_r.
Qed.

(** What a call that passes the guard does to a tidy browser. *)
Lemma lastSessionElementRef_rebinds (r : Render) (node : option nat)
    (b : Browser) :
  tidy b -> fetchSessions_guard r = false ->
  let b' := lastSessionElementRef r node b in
  tidy b' /\
  watched b' = match node with Some n => [n] | None => [] end /\
  current b' = Some (List.length (observers b)) /\
  nth_error (observers b') (List.length (observers b))
  = Some {| creator := r;
            targets := match node with Some n => [n] | None => [] end |}.
Proof.
  intros Ht Hg. cbv zeta. unfold lastSessionElementRef. rewrite Hg.
  destruct Ht as [->|[l [o [Ho [Hl [Hle Hc]]]]]].
  - destruct node as [n|]; cbn.
    + split; [|repeat split].
      right. exists [], {| creator := r; targets := [n] |}.
      repeat split; simpl; auto.
    + split; [|repeat split].
      right. exists [], {| creator := r; targets := [] |}.
      repeat split; simpl; auto.
  - rewrite Hc. unfold disconnect. cbn [observers current].
    rewrite Ho, adjust_last.
    set (o' := {| creator := creator o; targets := [] |}).
    assert (Hl' : Forall (fun x => targets x = []) (l ++ [o'])).
    { apply Forall_app. split; [exact Hl|]. now repeat constructor. }
    assert (Hlen : List.length (adjust (fun x => {| creator := creator x; targets := [] |})
                                  (List.length l) (l ++ [o]))
                   = List.length (l ++ [o])).
    { rewrite adjust_last, !length_app. reflexivity. }
    destruct node as [n|]; unfold observe; cbn [observers current].
    + rewrite adjust_last. cbn.
      split; [|split; [|split]].
      * right. exists (l ++ [o']), {| creator := r; targets := [n] |}.
        repeat split; simpl; auto.
      * unfold watched. cbn [observers].
        rewrite flat_map_app, (watched_disconnected _ Hl'). reflexivity.
      * rewrite !length_app. reflexivity.
      * rewrite nth_error_app2 by (rewrite !length_app; simpl; lia).
        rewrite !length_app. simpl.
        now rewrite Nat.sub_diag.
    + split; [|split; [|split]].
      * right. exists (l ++ [o']), {| creator := r; targets := [] |}.
        repeat split; simpl; auto.
      * unfold watched. cbn [observers].
        rewrite flat_map_app, (watched_disconnected _ Hl'). reflexivity.
      * rewrite !length_app. reflexivity.
      * rewrite nth_error_app2 by (rewrite !length_app; simpl; lia).
        rewrite !length_app. simpl.
        now rewrite Nat.sub_diag.
Qed.

Lemma lastSessionElementRef_tidy (r : Render) (node : option nat)
    (b : Browser) :
  tidy b -> tidy (lastSessionElementRef r node b).
Proof.
  intros Ht. destruct (fetchSessions_guard r) eqn:Hg.
  - unfold lastSessionElementRef. now rewrite Hg.
  - now apply lastSessionElementRef_rebinds.
Qed.

Lemma calls_tidy (l : list (Render * option nat)) (b : Browser) :
  tidy b -> tidy (calls l b).
Proof.
  revert b. induction l as [|c l IH]; intros b Ht; [exact Ht|].
  simpl. apply IH. now apply lastSessionElementRef_tidy.
Qed.

(** X12. However often and by whichever renders the ref callback has been
    called, at most one node is observed.  A further call by a render
    that is loading or past the last page returns at once, leaving the
    observers as they are (a node stays observed even when the call
    passes [null]); any other call disconnects the previous observer and
    installs a new one, created by that render, as [observer.current],
    and the node it was given, if any, is then the only one observed. *)
Theorem observer_rebinds (l : list (Render * option nat))
    (r : Render) (node : option nat) :
  let b := calls l noObserver in
  let b' := lastSessionElementRef r node b in
  (List.length (watched b) <= 1)%nat /\
  if fetchSessions_guard r then b' = b
  else
    watched b' = match node with Some n => [n] | None => [] end /\
    current b' = Some (List.length (observers b)) /\
    nth_error (observers b') (List.length (observers b))
    = Some {| creator := r;
              targets := match node with Some n => [n] | None => [] end |}.
Proof.
  cbv zeta.
  assert (Ht : tidy (calls l noObserver)) by (apply calls_tidy; now left).
  split; [now apply watched_tidy|].
  destruct (fetchSessions_guard r) eqn:Hg.
  - unfold lastSessionElementRef. now rewrite Hg.
  - now apply lastSessionElementRef_rebinds.
Qed.

(** The last row is observed; while the next page loads the callback is
    called with [null] by a render that is loading, and the row stays
    observed; a later render rebinds to the new last row. *)
Example observer_through_a_load :
  let idle := Sample.loaded [Sample.alice] in
  let busy := store (snd (fetchSessions_start idle (Sample.world idle))) in
  let b1 := lastSessionElementRef idle (Some 1%nat) noObserver in
  let b2 := lastSessionElementRef busy None b1 in
  let b3 := lastSessionElementRef idle (Some 2%nat) b2 in
  watched b1 = [1%nat] /\ b2 = b1 /\ watched b3 = [2%nat] /\
  List.length (observers b3) = 2%nat.
Proof. repeat split; reflexivity. Qed.

End ObserverFacts.

(* ------------------------------------------------------------------ *)
(** * The chat pane *)

Section ViewFacts.
Variable Date_parse : string -> JS.number.
Variable toLowerCase : string -> string.
Variable format_HHmm : JS.number -> JS.Completion string.
Variable formatDistanceToNow : JS.number -> JS.Completion string.

(** The rows are drawn when every subtitle is. *)
Lemma rowsOf_drawn (r : Render) (l : list ChatSession.t) :
  Forall (fun x => exists v,
              View.subtitleOf Date_parse formatDistanceToNow x = JS.Normal v) l ->
  exists rows,
    View.rowsOf Date_parse formatDistanceToNow r l = JS.Normal rows /\
    map View.key rows = map ChatSession.id l.
Proof.
  induction 1 as [|x l [v Hv] _ [rows [IH Hk]]]; simpl.
  - now exists [].
  - unfold View.row. rewrite Hv. simpl. rewrite IH. simpl.
    eexists. split; [reflexivity|]. simpl. now rewrite Hk.
Qed.

(** The bubbles are drawn when every time is formatted. *)
Lemma bubbles_drawn (l : list Message.t) :
  Forall (fun m => exists v,
              View.formatMessageTimestamp Date_parse format_HHmm
                (Message.timestamp m) = JS.Normal v) l ->
  exists bubbles,
    View.each (View.bubble Date_parse format_HHmm) l = JS.Normal bubbles /\
    Forall2 (fun m b =>
               View.formatMessageTimestamp Date_parse format_HHmm
                 (Message.timestamp m) = JS.Normal (View.stamp b) /\
               b = View.drawn m (View.stamp b))
            l bubbles.
Proof.
  induction 1 as [|m l [v Hv] _ [bubbles [IH H2]]]; simpl.
  - exists []. split; [reflexivity|constructor].
  - unfold View.bubble at 1. rewrite Hv. simpl. rewrite IH. simpl.
    eexists. split; [reflexivity|]. constructor; [|exact H2]. now split.
Qed.

(** A message whose time cannot be formatted takes the render down. *)
Lemma chatPane_throws (r : Render) (m : Message.t) (rest : list Message.t)
    (e : JS.Error) :
  View.truthyId (selectedSession r) = true ->
  messages r = m :: rest ->
  View.formatMessageTimestamp Date_parse format_HHmm (Message.timestamp m)
  = JS.Throw e ->
  View.chatPane Date_parse format_HHmm r = JS.Throw e.
Proof.
  intros Ht Hm He. unfold View.chatPane. rewrite Ht, Hm. simpl.
  unfold View.bubble at 1. now rewrite He.
Qed.

(** X13. After a click on a loaded session, provided the date library
    formats the times the page has to draw (the subtitle of every row
    shown and the time of every message of the session), the component
    renders, and its chat pane shows that session: its name as title
    and its messages as bubbles in the order of the array, the user's on
    the right and the assistant's on the left, each with its text and
    ["Today "] followed by its formatted time; unless the id is 0, which
    the test [selectedSession ? ... : ...] takes for "nothing selected":
    the messages are stored but the pane keeps its placeholder. *)
Theorem chatPane_after_click
    (w : World) (l1 l2 : list ChatSession.t) (s : ChatSession.t)
    (Hloaded : sessions (store w) = l1 ++ s :: l2)
    (Hfirst : forall x, In x l1 -> ChatSession.id x <> ChatSession.id s)
    (Hrows : Forall (fun x => exists v,
                         View.subtitleOf Date_parse formatDistanceToNow x
                         = JS.Normal v)
                    (filteredSessions Date_parse toLowerCase (store w)))
    (Htimes : Forall (fun m => exists v,
                          View.formatMessageTimestamp Date_parse format_HHmm
                            (Message.timestamp m) = JS.Normal v)
                     (ChatSession.messages s)) :
  let w' := handle Date_parse (Click (ChatSession.id s)) w in
  messages (store w') = ChatSession.messages s /\
  exists page,
    View.render Date_parse toLowerCase format_HHmm formatDistanceToNow
      (store w') = JS.Normal page /\
    map View.key (View.rows page)
    = map ChatSession.id (filteredSessions Date_parse toLowerCase (store w)) /\
    if ChatSession.id s =? 0 then View.pane page = View.Placeholder
    else
      exists bubbles,
        View.pane page
        = View.Conversation (Some (ChatSession.name s)) bubbles /\
        Forall2 (fun m b =>
                   View.formatMessageTimestamp Date_parse format_HHmm
                     (Message.timestamp m) = JS.Normal (View.stamp b) /\
                   b = View.drawn m (View.stamp b))
                (ChatSession.messages s) bubbles.
Proof.
  cbv zeta.
  assert (Hfind : find (fun session => ChatSession.id session =? ChatSession.id s)
                       (sessions (store w)) = Some s).
  { rewrite Hloaded. now apply find_first. }
  unfold handle. rewrite (handleSessionClick_found _ _ _ Hfind). cbn.
  split; [reflexivity|].
  destruct (rowsOf_drawn (selected s (store w)) _ Hrows) as [rows [Hr Hk]].
  destruct (bubbles_drawn _ Htimes) as [bubbles [Hb H2]].
  unfold View.render.
  change (filteredSessions Date_parse toLowerCase (selected s (store w)))
    with (filteredSessions Date_parse toLowerCase (store w)).
  rewrite Hr. simpl.
  unfold View.chatPane, View.title. cbn [selectedSession selected messages sessions].
  rewrite Hfind. simpl option_map.
  destruct (ChatSession.id s) eqn:Hid; simpl.
  - eexists. split; [reflexivity|]. split; [exact Hk|reflexivity].
  - rewrite Hb. simpl. eexists. split; [reflexivity|].
    split; [exact Hk|]. exists bubbles. now split.
  - rewrite Hb. simpl. eexists. split; [reflexivity|].
    split; [exact Hk|]. exists bubbles. now split.
Qed.

End ViewFacts.

Lemma chatPane_after_click_witness :
  let w := Sample.world (Sample.loaded [Sample.bob; Sample.alice]) in
  sessions (store w) = [Sample.bob] ++ Sample.alice :: [] /\
  (forall x, In x [Sample.bob] -> ChatSession.id x <> 7) /\
  Forall (fun x => exists v,
              View.subtitleOf Date_parse_iso Sample2.someTimeAgo x = JS.Normal v)
         (filteredSessions Date_parse_iso JS.asciiToLowerCase (store w)) /\
  Forall (fun m => exists v,
              View.formatMessageTimestamp Date_parse_iso Sample2.utcHHmm
                (Message.timestamp m) = JS.Normal v)
         (ChatSession.messages Sample.alice) /\
  messages (store (handle Date_parse_iso (Click 7) w))
  = ChatSession.messages Sample.alice /\
  exists page,
    View.render Date_parse_iso JS.asciiToLowerCase Sample2.utcHHmm
      Sample2.someTimeAgo (store (handle Date_parse_iso (Click 7) w))
    = JS.Normal page /\
    map View.key (View.rows page) = [8; 7] /\
    exists bubbles,
      View.pane page = View.Conversation (Some "Alice Johnson") bubbles /\
      Forall2 (fun m b =>
                 View.formatMessageTimestamp Date_parse_iso Sample2.utcHHmm
                   (Message.timestamp m) = JS.Normal (View.stamp b) /\
                 b = View.drawn m (View.stamp b))
              (ChatSession.messages Sample.alice) bubbles.
Proof.
  cbv zeta.
  assert (Hfirst : forall x, In x [Sample.bob] ->
                             ChatSession.id x <> ChatSession.id Sample.alice).
  { intros x [<-|[]]. discriminate. }
  assert (Hrows : Forall (fun x => exists v,
                     View.subtitleOf Date_parse_iso Sample2.someTimeAgo x
                     = JS.Normal v)
            (filteredSessions Date_parse_iso JS.asciiToLowerCase
               (store (Sample.world (Sample.loaded [Sample.bob; Sample.alice]))))).
  { repeat constructor; eexists; reflexivity. }
  assert (Htimes : Forall (fun m => exists v,
                      View.formatMessageTimestamp Date_parse_iso Sample2.utcHHmm
                        (Message.timestamp m) = JS.Normal v)
            (ChatSession.messages Sample.alice)).
  { repeat constructor; eexists; reflexivity. }
  split; [reflexivity|]. split; [exact Hfirst|].
  split; [exact Hrows|]. split; [exact Htimes|].
  exact (chatPane_after_click Date_parse_iso JS.asciiToLowerCase
           Sample2.utcHHmm Sample2.someTimeAgo
           (Sample.world (Sample.loaded [Sample.bob; Sample.alice]))
           [Sample.bob] [] Sample.alice eq_refl Hfirst Hrows Htimes).
Defined.

Example render_shows_session_7 :
  View.render Date_parse_iso JS.asciiToLowerCase Sample2.utcHHmm
    Sample2.someTimeAgo
    (store (handle Date_parse_iso (Click 7)
              (Sample.world (Sample.loaded [Sample.carol; Sample.alice]))))
  = JS.Normal
      {| View.searchBox := None; View.dateInputs := None;
         View.rows :=
           [ {| View.key := 9; View.label := "Carol";
                View.carriesRef := false; View.highlighted := false;
                View.subtitle := View.Role "admin" |};
             {| View.key := 7; View.label := "Alice Johnson";
                View.carriesRef := true; View.highlighted := true;
                View.subtitle := View.Ago "some time ago" |} ];
         View.spinner := false;
         View.pane :=
           View.Conversation (Some "Alice Johnson")
             [ {| View.alignRight := false; View.text := "You are welcome.";
                  View.stamp := "Today 09:15" |};
               {| View.alignRight := true; View.text := "Thanks!";
                  View.stamp := "Today 09:14" |};
               {| View.alignRight := true; View.text := "Hello";
                  View.stamp := "Today 18:00" |} ] |}.
Proof. reflexivity. Qed.

(** Session 0 is selected and its messages stored, but the pane keeps
    the placeholder; an unreadable timestamp in a row that is drawn
    makes the render throw. *)
Example render_edge_cases :
  (exists page,
      View.render Date_parse_iso JS.asciiToLowerCase Sample2.utcHHmm
        Sample2.someTimeAgo
        (store (handle Date_parse_iso (Click 0)
                  (Sample.world (Sample.loaded [Sample.bob; Sample2.zero]))))
      = JS.Normal page /\ View.pane page = View.Placeholder) /\
  messages (store (handle Date_parse_iso (Click 0)
                     (Sample.world (Sample.loaded [Sample.bob; Sample2.zero]))))
  = ChatSession.messages Sample2.zero /\
  View.render Date_parse_iso JS.asciiToLowerCase Sample2.utcHHmm
    Sample2.someTimeAgo (Sample.loaded [Sample.bob; Sample2.undated])
  = JS.Throw Sample2.invalidTime.
Proof.
  split; [eexists; split; reflexivity|]. split; reflexivity.
Qed.



